(** * gomobile-gcal-summary: the weekly / monthly hour report of [main.go]

    The program lists the user's calendars, fetches the events of each one and
    folds them, in the order received, into two totals of hours (current week,
    current month) and two counters of work days.  This file embeds that loop
    and the values of Go's [time] and [float64] it computes with, and proves
    the properties the specification states about it; it then embeds the
    token cache and [main] as a whole, and proves further properties of the
    code.

    What is modelled, and how:
    - [float64] is IEEE-754 binary64, as [SpecFloat.spec_float] with
      precision 53 and maximal exponent 1024 (round to nearest, ties to even);
    - [int] and [int64] are [Z], with the two's-complement wrap written out
      where the program does arithmetic on them;
    - a [time.Time] is its Unix second, its nanosecond and its location; a
      [*time.Location] is its method [lookup], which gives the zone in force
      at a Unix second, so that the UTC offset of a time is the one its
      location has at that instant and [time.Date] resolves the offset in
      force on the date asked for;
    - standard output is the list of the values handed to the print calls;
    - [time.Parse] is a parameter of the loop: every theorem holds for every
      parser.  [RFC3339.parse] is a reference parser for timestamps written
      the way the calendar service writes them, used for the worked examples;
    - what the program finds outside itself (the files, standard input, the
      OAuth and calendar services, the clock) is a parameter too: a world of
      files and input that is passed along, and the library calls as
      variables of a section.
*)

From Stdlib Require Import ZArith List String Ascii Bool Lia QArith.
From Stdlib Require Import Floats.SpecFloat.
From Stdlib Require Import Sorting.Sorted.
Import ListNotations.
Open Scope Z_scope.

(** ** [int] and [int64] *)

Module Int64.

Definition min_int : Z := - 2 ^ 63.
Definition max_int : Z := 2 ^ 63 - 1.

(** Two's-complement reduction of an integer to 64 bits. *)
Definition wrap (z : Z) : Z := (z + 2 ^ 63) mod 2 ^ 64 - 2 ^ 63.

End Int64.

(** ** [float64] *)

Module Float64.

Definition prec : Z := 53.
Definition emax : Z := 1024.

Definition float64 : Type := spec_float.

Definition zero : float64 := S754_zero false.

(** [float64(z)] for an integer [z]. *)
Definition of_int (z : Z) : float64 := binary_normalize prec emax z 0 false.

Definition add (x y : float64) : float64 := SFadd prec emax x y.
Definition sub (x y : float64) : float64 := SFsub prec emax x y.
Definition div (x y : float64) : float64 := SFdiv prec emax x y.
Definition neg (x : float64) : float64 := SFopp x.

(** The rational a finite float stands for. *)
Definition toQ (x : float64) : option Q :=
  match x with
  | S754_zero _ => Some (0 # 1)
  | S754_finite s m e =>
      let n := if s then Z.neg m else Z.pos m in
      Some (match e with
            | Z0 => n # 1
            | Z.pos p => (n * 2 ^ Z.pos p) # 1
            | Z.neg p => n # (2 ^ p)
            end)
  | _ => None
  end.

(** [x] is finite and its value is the rational [q]. *)
Definition exactly (x : float64) (q : Q) : Prop :=
  match toQ x with
  | Some v => (v == q)%Q
  | None => False
  end.

End Float64.

(** ** The [time] package *)

Module GoTime.

Import Float64.

(** A zone of a location: its offset in seconds east of UTC and the Unix
    seconds, from [zoneStart] on and before [zoneEnd], at which it is in
    force. *)
Record Zone : Type := mkZone { zoneOffset : Z; zoneStart : Z; zoneEnd : Z }.

(** A [*time.Location], as its method [lookup(sec)]: the zone in force at a
    Unix second.  The zone data itself is outside the program. *)
Record Location : Type := mkLocation { lookup : Z -> Zone }.

(** [time.FixedZone(name, offset)]: one zone, in force at all times. *)
Definition FixedZone (offset : Z) : Location :=
  mkLocation (fun _ => mkZone offset Int64.min_int Int64.max_int).

(** [time.UTC]. *)
Definition UTC : Location := FixedZone 0.

(** The offset the location has at a Unix second. *)
Definition offsetAt (l : Location) (unix : Z) : Z := zoneOffset (lookup l unix).

(** [sec]: seconds since 1970-01-01T00:00:00Z ([t.Unix()]);
    [nsec]: nanoseconds within the second;
    [loc]: the location of the time ([t.Location()]). *)
Record Time : Type := mkTime { sec : Z; nsec : Z; loc : Location }.

Definition Unix (t : Time) : Z := sec t.

(** The seconds east of UTC of the wall clock [t] is shown on: the offset
    its location has at the instant [t] (the lookup of [t.abs()]). *)
Definition offset (t : Time) : Z := offsetAt (loc t) (sec t).

(** The zero [Time]: January 1, year 1, 00:00:00 UTC.  It is what
    [time.Parse] returns together with an error. *)
Definition zeroTime : Time := mkTime (-62135596800) 0 UTC.

(** *** The proleptic Gregorian calendar *)

(** Days from 1970-01-01 to the civil date [y]-[m]-[d]. *)
Definition days_from_civil (y m d : Z) : Z :=
  let y' := if m <=? 2 then y - 1 else y in
  let era := y' / 400 in
  let yoe := y' - era * 400 in
  let mp := if 2 <? m then m - 3 else m + 9 in
  let doy := (153 * mp + 2) / 5 + d - 1 in
  let doe := yoe * 365 + yoe / 4 - yoe / 100 + doy in
  era * 146097 + doe - 719468.

(** The civil date (year, month, day) of a day number. *)
Definition civil_from_days (z : Z) : Z * Z * Z :=
  let z' := z + 719468 in
  let era := z' / 146097 in
  let doe := z' - era * 146097 in
  let yoe := (doe - doe / 1460 + doe / 36524 - doe / 146096) / 365 in
  let doy := doe - (365 * yoe + yoe / 4 - yoe / 100) in
  let mp := (5 * doy + 2) / 153 in
  let d := doy - (153 * mp + 2) / 5 + 1 in
  let m := if mp <? 10 then mp + 3 else mp - 9 in
  let y := yoe + era * 400 in
  ((if m <=? 2 then y + 1 else y), m, d).

(** The day number of [t] on the wall clock of its own location. *)
Definition localDay (t : Time) : Z := (sec t + offset t) / 86400.

Definition Year (t : Time) : Z := fst (fst (civil_from_days (localDay t))).
Definition Month (t : Time) : Z := snd (fst (civil_from_days (localDay t))).
(** [t.Day()]: the day of the month, 1 to 31. *)
Definition Day (t : Time) : Z := snd (civil_from_days (localDay t)).
(** [t.Weekday()]: Sunday = 0, ..., Saturday = 6. *)
Definition Weekday (t : Time) : Z := (localDay t + 4) mod 7.
(** The seconds from 1970-01-01 00:00:00 to [year]-[month]-[day]
    [hour]:[min]:[s], both read on one clock that is never changed.  The
    month is normalised into the year; day, hour, minute and second outside
    their ranges carry over, which the linear sum does by itself. *)
Definition wall (year month day hour min s : Z) : Z :=
  let m0 := month - 1 in
  let year' := year + m0 / 12 in
  let month' := m0 mod 12 + 1 in
  let d := days_from_civil year' month' 1 + (day - 1) in
  d * 86400 + hour * 3600 + min * 60 + s.

(** [time.Date(year, month, day, hour, min, sec, 0, loc)], which looks for
    the offset the location has at the reading asked for, as the release
    of Go that the Dockerfile builds with ([FROM golang]) has it:
    [_, offset, start, end, _ := loc.lookup(unix)
     if offset != 0 {
       utc := unix - int64(offset)
       if utc < start || utc >= end { _, offset, _, _, _ = loc.lookup(utc) }
       unix -= int64(offset)
     }]. *)
Definition Date (year month day hour min s : Z) (l : Location) : Time :=
  let unix := wall year month day hour min s in
  let zone := lookup l unix in
  let offset := zoneOffset zone in
  if offset =? 0 then mkTime unix 0 l
  else
    let utc := unix - offset in
    let offset' :=
      if (utc <? zoneStart zone) || (zoneEnd zone <=? utc)
      then offsetAt l utc
      else offset in
    mkTime (unix - offset') 0 l.

(** *** Durations *)

(** A [Duration] is an [int64] count of nanoseconds. *)
Definition Duration : Type := Z.

Definition Second : Duration := 1000000000.
Definition Hour : Duration := 3600 * Second.
Definition minDuration : Duration := Int64.min_int.
Definition maxDuration : Duration := Int64.max_int.

(** [t.Sub(u)]: the duration [t - u], or the minimum / maximum duration
    when the difference does not fit. *)
Definition Sub (t u : Time) : Duration :=
  let d := (sec t - sec u) * Second + (nsec t - nsec u) in
  if d <? minDuration then minDuration
  else if maxDuration <? d then maxDuration
  else d.

(** [d.Hours()]:
    [hour := d / Hour; nsec := d % Hour;
     return float64(hour) + float64(nsec)/(60*60*1e9)]. *)
Definition Hours (d : Duration) : float64 :=
  let hour := Z.quot d Hour in
  let nsec := Z.rem d Hour in
  add (of_int hour) (div (of_int nsec) (of_int (60 * 60 * 1000000000))).

End GoTime.

(** ** RFC 3339 timestamps *)

Module RFC3339.

Import GoTime.

Definition digit (c : ascii) : option Z :=
  let n := Z.of_nat (nat_of_ascii c) in
  if (48 <=? n) && (n <=? 57) then Some (n - 48) else None.

(** Reads exactly [n] decimal digits. *)
Fixpoint number (n : nat) (acc : Z) (s : string) : option (Z * string) :=
  match n with
  | O => Some (acc, s)
  | S n' =>
      match s with
      | String c s' =>
          match digit c with
          | Some d => number n' (10 * acc + d) s'
          | None => None
          end
      | EmptyString => None
      end
  end.

Definition expect (c : ascii) (s : string) : option string :=
  match s with
  | String c' s' => if Ascii.eqb c c' then Some s' else None
  | EmptyString => None
  end.

Definition bind {A B : Type} (o : option A) (f : A -> option B) : option B :=
  match o with
  | Some a => f a
  | None => None
  end.

Definition isLeap (y : Z) : bool :=
  (y mod 4 =? 0) && (negb (y mod 100 =? 0) || (y mod 400 =? 0)).

Definition daysIn (m y : Z) : Z :=
  if m =? 2 then (if isLeap y then 29 else 28)
  else if (m =? 4) || (m =? 6) || (m =? 9) || (m =? 11) then 30
  else 31.

(** The zone: [Z], or a sign and [hh:mm]; nothing may follow it. *)
Definition zone (s : string) : option Z :=
  match s with
  | String c s' =>
      if Ascii.eqb c "Z" then
        match s' with EmptyString => Some 0 | _ => None end
      else
        let sign := if Ascii.eqb c "+" then Some 1
                    else if Ascii.eqb c "-" then Some (-1)
                    else None in
        bind sign (fun sg =>
        bind (number 2 0 s') (fun '(hh, s1) =>
        bind (expect ":" s1) (fun s2 =>
        bind (number 2 0 s2) (fun '(mm, s3) =>
        match s3 with
        | EmptyString =>
            if (hh <? 24) && (mm <? 60)
            then Some (sg * (hh * 3600 + mm * 60))
            else None
        | _ => None
        end))))
  | EmptyString => None
  end.

(** Reference parser for the layout [2006-01-02T15:04:05Z07:00] on
    timestamps of the form [YYYY-MM-DDThh:mm:ss] followed by [Z] or
    [+hh:mm] / [-hh:mm], with every field in its range.  Anything else,
    the empty string of an all-day event included, is an error.  The time
    is the instant written, in a location that has the offset written. *)
Definition parse (s : string) : option Time :=
  bind (number 4 0 s) (fun '(y, s) =>
  bind (expect "-" s) (fun s =>
  bind (number 2 0 s) (fun '(mo, s) =>
  bind (expect "-" s) (fun s =>
  bind (number 2 0 s) (fun '(d, s) =>
  bind (expect "T" s) (fun s =>
  bind (number 2 0 s) (fun '(hh, s) =>
  bind (expect ":" s) (fun s =>
  bind (number 2 0 s) (fun '(mi, s) =>
  bind (expect ":" s) (fun s =>
  bind (number 2 0 s) (fun '(ss, s) =>
  bind (zone s) (fun off =>
  if (1 <=? mo) && (mo <=? 12) && (1 <=? d) && (d <=? daysIn mo y)
     && (hh <? 24) && (mi <? 60) && (ss <? 60)
  then Some (Date y mo d hh mi ss (FixedZone off))
  else None)))))))))))).

End RFC3339.

(** ** The report loop of [main.go] *)

Module Summary.

Import Float64 GoTime.

(** The fields of a [calendar.Event] the loop reads: [ev.Summary],
    [ev.Start.DateTime] and [ev.End.DateTime]. *)
Record Event : Type := mkEvent {
  Summary : string;
  StartDateTime : string;
  EndDateTime : string
}.

(** What the print calls are given, in the order they are made. *)
Inductive Output : Type :=
| OutWindow (begin_ end_ : Time)
    (* fmt.Printf("%v - %v\n", begin, end) *)
| OutParseError (value : string)
    (* fmt.Println(err), err from time.Parse(time.RFC3339, value) *)
| OutEvent (startTime : Time) (duration : float64) (summary : string)
    (* fmt.Printf("%v\t\t%v\t%v\n\n", startTime.Format(time.RFC1123),
                  duration, ev.Summary) *)
| OutTotal (label : string) (total target diff : float64)
    (* fmt.Printf("week total: %v of %v (%+.2f)\n", ...) *)
| OutValue (summary : string)
    (* fmt.Printf("%#v\n", ev.Summary), in the earlier version *)
| OutHours (duration : float64)
    (* fmt.Printf("%#v\n", duration), in the earlier version *)
| OutBlank
    (* fmt.Println(), in the earlier version *).

Record Windows : Type := mkWindows {
  weekBegin : Time;
  weekEnd : Time;
  monthBegin : Time;
  monthEnd : Time
}.

(** The local variables of [main] that live across iterations, and
    standard output. *)
Record State : Type := mkState {
  lastStartTime : Time;
  lastEndTime : Time;
  today : Z;
  weekTotal : float64;
  workDaysInWeek : Z;
  monthTotal : float64;
  workDaysInMonth : Z;
  out : list Output
}.

(** The answer of [srv.Events.List(cal.Id)...Do()] for one calendar. *)
Inductive Fetch : Type :=
| FetchError (err : string)
| FetchOk (items : list Event).

(** A run ends in [log.Fatalf] or reaches the end of [main]. *)
Inductive Run (A : Type) : Type :=
| Fatal (printed : list Output) (msg : string)
| Done (a : A).
Arguments Fatal {A} printed msg.
Arguments Done {A} a.

Definition titlePrefix : string := "SolarWinds".

(** [strings.HasPrefix(s, prefix)]. *)
Definition HasPrefix (s prefix : string) : bool := String.prefix prefix s.

(** [int(now.Weekday())] with Sunday moved to 7. *)
Definition weekdayOf (now : Time) : Z :=
  let weekday := Weekday now in
  if weekday =? 0 then 7 else weekday.

(** [monthBegin], [monthEnd], [weekBegin] and [weekEnd] of [main]; each
    is a [time.Date] in [now.Location()]. *)
Definition windowsOf (now : Time) : Windows :=
  let weekday := weekdayOf now in
  {| monthBegin := Date (Year now) (Month now) 1 0 0 0 (loc now);
     monthEnd := Date (Year now) (Month now + 1) 0 23 59 59 (loc now);
     weekBegin :=
       Date (Year now) (Month now) (Day now - weekday + 1) 0 0 0 (loc now);
     weekEnd :=
       Date (Year now) (Month now) (Day now - weekday + 7) 23 59 59
            (loc now) |}.

Definition initial (printed : list Output) : State :=
  {| lastStartTime := zeroTime;
     lastEndTime := zeroTime;
     today := 0;
     weekTotal := zero;
     workDaysInWeek := 0;
     monthTotal := zero;
     workDaysInMonth := 0;
     out := printed |}.

Section Loop.

(** [time.Parse(time.RFC3339, .)]: [None] is a non-nil error. *)
Variable parse : string -> option Time.
Variable w : Windows.

(** The [Time] that [time.Parse] returns: the parsed one, or the zero
    [Time] next to an error. *)
Definition timeOf (value : string) : Time :=
  match parse value with
  | Some t => t
  | None => zeroTime
  end.

(** [if err != nil { fmt.Println(err) }]. *)
Definition errorOf (value : string) : list Output :=
  match parse value with
  | Some _ => []
  | None => [OutParseError value]
  end.

Definition startTimeOf (ev : Event) : Time := timeOf (StartDateTime ev).
Definition endTimeOf (ev : Event) : Time := timeOf (EndDateTime ev).

Definition inWeek (ev : Event) : bool :=
  (Unix (weekBegin w) <? Unix (startTimeOf ev))
  && (Unix (endTimeOf ev) <? Unix (weekEnd w)).

Definition inMonth (ev : Event) : bool :=
  (Unix (monthBegin w) <? Unix (startTimeOf ev))
  && (Unix (endTimeOf ev) <? Unix (monthEnd w)).

Definition durationOf (ev : Event) : float64 :=
  Hours (Sub (endTimeOf ev) (startTimeOf ev)).

Definition matches (ev : Event) : bool := HasPrefix (Summary ev) titlePrefix.

(** [if startTime.Day() != today { ... }]. *)
Definition dayChange (st : State) (ev : Event) : State :=
  let startTime := startTimeOf ev in
  let endTime := endTimeOf ev in
  if Day startTime =? today st then st
  else
    {| today := Day startTime;
       lastStartTime := startTime;
       lastEndTime := endTime;
       workDaysInWeek :=
         if inWeek ev then Int64.wrap (workDaysInWeek st + 1)
         else workDaysInWeek st;
       workDaysInMonth :=
         if inMonth ev then Int64.wrap (workDaysInMonth st + 1)
         else workDaysInMonth st;
       weekTotal := weekTotal st;
       monthTotal := monthTotal st;
       out := out st |}.

(** The body of [for _, ev := range events.Items]. *)
Definition forEvent (st : State) (ev : Event) : State :=
  if negb (matches ev) then st
  else
    let duration := durationOf ev in
    let st1 := dayChange st ev in
    {| today := today st1;
       lastStartTime := lastStartTime st1;
       lastEndTime := lastEndTime st1;
       workDaysInWeek := workDaysInWeek st1;
       workDaysInMonth := workDaysInMonth st1;
       weekTotal :=
         if inWeek ev then add (weekTotal st1) duration
         else weekTotal st1;
       monthTotal :=
         if inMonth ev then add (monthTotal st1) duration
         else monthTotal st1;
       out :=
         out st1 ++ errorOf (StartDateTime ev) ++ errorOf (EndDateTime ev)
           ++ [OutEvent (startTimeOf ev) duration (Summary ev)] |}.

Definition forEvents (st : State) (items : list Event) : State :=
  fold_left forEvent items st.

(** [for _, cal := range list.Items]: a failed fetch is fatal. *)
Fixpoint forCalendars (st : State) (cals : list Fetch) : Run State :=
  match cals with
  | [] => Done st
  | FetchError err :: _ =>
      Fatal (out st)
            ("Unable to retrieve next ten of the user's events. " ++ err)
  | FetchOk items :: rest => forCalendars (forEvents st items) rest
  end.

End Loop.

(** What a finished run has computed and printed. *)
Record Report : Type := mkReport {
  final : State;
  weekTargetTotal : float64;
  monthTargetTotal : float64;
  stdout : list Output
}.

(** The end of [main], after the loops. *)
Definition report (st : State) : Report :=
  let weekTargetTotal := of_int (Int64.wrap (workDaysInWeek st * 8)) in
  let monthTargetTotal := of_int (Int64.wrap (workDaysInMonth st * 8)) in
  {| final := st;
     weekTargetTotal := weekTargetTotal;
     monthTargetTotal := monthTargetTotal;
     stdout :=
       out st
       ++ [OutTotal "week total" (weekTotal st) weekTargetTotal
             (neg (sub weekTargetTotal (weekTotal st)));
           OutTotal "month total" (monthTotal st) monthTargetTotal
             (neg (sub monthTargetTotal (monthTotal st)))] |}.

(** The aggregation with the windows given: the two loops and the
    targets. *)
Definition aggregate (parse : string -> option Time) (w : Windows)
    (printed : list Output) (cals : list Fetch) : Run Report :=
  match forCalendars parse w (initial printed) cals with
  | Fatal o msg => Fatal o msg
  | Done st => Done (report st)
  end.

(** The part of [main] from [now := time.Now()] to its end (lines 131 to
    229 of [main.go]); [cals] are the answers of the calendar service to
    the events requests, one per calendar of the list.  The lines before
    it, which may print and may end the run, are in [Program.main], which
    hands [now] and the answers to this part. *)
Definition main (parse : string -> option Time) (now : Time)
    (cals : list Fetch) : Run Report :=
  let w := windowsOf now in
  aggregate parse w
    [OutWindow (monthBegin w) (monthEnd w);
     OutWindow (weekBegin w) (weekEnd w)]
    cals.

End Summary.

(** ** The earlier version of the loop

    The third program of the repository has the same loop with the day
    check placed before the duration is computed, two unused integers in
    place of [lastStartTime] and [lastEndTime], and three print calls per
    event. *)

Module Earlier.

Import Float64 GoTime Summary.

Record State : Type := mkState {
  today : Z;
  todayStartTime : Z;
  todayEndTime : Z;
  weekTotal : float64;
  workDaysInWeek : Z;
  monthTotal : float64;
  workDaysInMonth : Z;
  out : list Output
}.

Definition initial (printed : list Output) : State :=
  {| today := 0;
     todayStartTime := 0;
     todayEndTime := 0;
     weekTotal := zero;
     workDaysInWeek := 0;
     monthTotal := zero;
     workDaysInMonth := 0;
     out := printed |}.

Section Loop.

Variable parse : string -> option Time.
Variable w : Windows.

Definition forEvent (st : State) (ev : Event) : State :=
  if negb (HasPrefix (Summary ev) titlePrefix) then st
  else
    let startTime := timeOf parse (StartDateTime ev) in
    let endTime := timeOf parse (EndDateTime ev) in
    let inWeek :=
      (Unix (weekBegin w) <? Unix startTime)
      && (Unix endTime <? Unix (weekEnd w)) in
    let inMonth :=
      (Unix (monthBegin w) <? Unix startTime)
      && (Unix endTime <? Unix (monthEnd w)) in
    let changed := negb (Day startTime =? today st) in
    let duration := Hours (Sub endTime startTime) in
    {| today := if changed then Day startTime else today st;
       todayStartTime := if changed then 0 else todayStartTime st;
       todayEndTime := if changed then 0 else todayEndTime st;
       workDaysInWeek :=
         if changed && inWeek then Int64.wrap (workDaysInWeek st + 1)
         else workDaysInWeek st;
       workDaysInMonth :=
         if changed && inMonth then Int64.wrap (workDaysInMonth st + 1)
         else workDaysInMonth st;
       weekTotal :=
         if inWeek then add (weekTotal st) duration else weekTotal st;
       monthTotal :=
         if inMonth then add (monthTotal st) duration else monthTotal st;
       out :=
         out st ++ errorOf parse (StartDateTime ev)
           ++ errorOf parse (EndDateTime ev)
           ++ [OutValue (Summary ev); OutHours duration; OutBlank] |}.

Definition forEvents (st : State) (items : list Event) : State :=
  fold_left forEvent items st.

End Loop.

End Earlier.

(** ** Notions the properties are stated with *)

Module Notions.

Import Float64 GoTime Summary.

(** The two states agree on every variable of the loop, standard output
    apart. *)
Definition sameVariables (a b : State) : Prop :=
  lastStartTime a = lastStartTime b /\ lastEndTime a = lastEndTime b
  /\ today a = today b
  /\ weekTotal a = weekTotal b /\ workDaysInWeek a = workDaysInWeek b
  /\ monthTotal a = monthTotal b /\ workDaysInMonth a = workDaysInMonth b.

(** The totals and the day counters of the two states are the same. *)
Definition sameResults (a b : State) : Prop :=
  weekTotal a = weekTotal b /\ workDaysInWeek a = workDaysInWeek b
  /\ monthTotal a = monthTotal b /\ workDaysInMonth a = workDaysInMonth b.

(** An event from [startTime] to [endTime] lies fully outside the window
    from [begin_] to [end_]: all of it is at or before the beginning, or
    all of it is at or after the end. *)
Definition fullyOutside (begin_ end_ startTime endTime : Time) : Prop :=
  (Unix startTime <= Unix begin_ /\ Unix endTime <= Unix begin_)
  \/ (Unix end_ <= Unix startTime /\ Unix end_ <= Unix endTime).

(** The start or the end of an event lands on a boundary of the window.
    For the two crossed cases (start on the end, end on the beginning) the
    event is one that does not end before it starts. *)
Definition onBoundary (begin_ end_ startTime endTime : Time) : Prop :=
  Unix startTime = Unix begin_
  \/ Unix endTime = Unix end_
  \/ (Unix startTime <= Unix endTime
      /\ (Unix startTime = Unix end_ \/ Unix endTime = Unix begin_)).

(** The algebraic difference of two times, in nanoseconds. *)
Definition difference (endTime startTime : Time) : Z :=
  (sec endTime - sec startTime) * Second + (nsec endTime - nsec startTime).

(** Both day counters lie between 0 and [n]. *)
Definition countersWithin (n : Z) (st : State) : Prop :=
  0 <= workDaysInWeek st <= n /\ 0 <= workDaysInMonth st <= n.

(** The title of the event starts with the prefix. *)
Definition startsWithPrefix (ev : Event) : bool :=
  HasPrefix (Summary ev) titlePrefix.

(** The answers of the calendar service without the events whose title
    does not start with the prefix. *)
Definition onlyMatching (cals : list Fetch) : list Fetch :=
  map (fun c =>
         match c with
         | FetchError err => FetchError err
         | FetchOk items => FetchOk (filter startsWithPrefix items)
         end) cals.

(** The number of events in the answers. *)
Fixpoint eventCount (cals : list Fetch) : Z :=
  match cals with
  | [] => 0
  | FetchError _ :: rest => eventCount rest
  | FetchOk items :: rest => Z.of_nat (List.length items) + eventCount rest
  end.

Section Counting.

Variable parse : string -> option Time.
Variable w : Windows.

(** The start times the loop works with, in the order of the input. *)
Definition starts (items : list Event) : list Time :=
  map (startTimeOf parse) (filter startsWithPrefix items).

(** The start instants are in ascending order. *)
Definition ascending (items : list Event) : Prop :=
  Sorted (fun a b => Unix a <= Unix b) (starts items).

(** Every start time is written with the UTC offset [off]. *)
Definition sameZone (off : Z) (items : list Event) : Prop :=
  Forall (fun t => offset t = off) (starts items).

(** The start times are in ascending order of the calendar day they
    show on their own wall clock. *)
Definition ascendingDays (items : list Event) : Prop :=
  StronglySorted (fun a b => localDay a <= localDay b) (starts items).


End Counting.

End Notions.

(** ** Worked inputs *)

Module Examples.

Import Float64 GoTime Summary.

(** Wednesday 8 March 2017, noon, UTC. *)
Definition now : Time := Date 2017 3 8 12 0 0 UTC.

Definition week : Windows := windowsOf now.

Definition standup : Event :=
  mkEvent "SolarWinds: standup" "2017-03-06T09:00:00Z" "2017-03-06T09:30:00Z".
Definition review : Event :=
  mkEvent "SolarWinds: review" "2017-03-06T14:00:00Z" "2017-03-06T15:00:00Z".
Definition lunch : Event :=
  mkEvent "Lunch" "2017-03-06T12:00:00Z" "2017-03-06T13:00:00Z".

(** The example of the specification: one calendar, three events. *)
Definition example : list Fetch := [FetchOk [standup; review; lunch]].

(** What [main] computes and prints for it. *)
Definition exampleReport : Report :=
  report
    (forEvents RFC3339.parse week
       (initial [OutWindow (monthBegin week) (monthEnd week);
                 OutWindow (weekBegin week) (weekEnd week)])
       [standup; review; lunch]).

(** The day number of Monday 6 March 2017. *)
Definition monday : Z := days_from_civil 2017 3 6.

(** An all-day event: its [DateTime] fields are empty. *)
Definition allDay : Event := mkEvent "SolarWinds: on call" "" "".

(** An event whose end is not a timestamp. *)
Definition halfParsed : Event :=
  mkEvent "SolarWinds: open end" "2017-03-06T09:00:00Z" "".

(** A full day of work on Wednesday 1 March 2017. *)
Definition firstOfMarch : Event :=
  mkEvent "SolarWinds: shift" "2017-03-01T09:00:00Z" "2017-03-01T17:00:00Z".

(** Monday 6 February and Monday 6 March 2017. *)
Definition sixthOfFebruary : Event :=
  mkEvent "SolarWinds: shift" "2017-02-06T09:00:00Z" "2017-02-06T17:00:00Z".
Definition sixthOfMarch : Event :=
  mkEvent "SolarWinds: shift" "2017-03-06T09:00:00Z" "2017-03-06T17:00:00Z".

(** The state of the loop after the event of 6 February. *)
Definition afterFebruary : State :=
  forEvent RFC3339.parse week (initial []) sixthOfFebruary.



(** An event that starts exactly with the week, and one that ends
    exactly with it. *)
Definition atWeekBegin : Event :=
  mkEvent "SolarWinds: night" "2017-03-06T00:00:00Z" "2017-03-06T01:00:00Z".
Definition atWeekEnd : Event :=
  mkEvent "SolarWinds: late" "2017-03-12T23:00:00Z" "2017-03-12T23:59:59Z".

(** Ninety minutes, and twenty minutes. *)
Definition ninety : Event :=
  mkEvent "SolarWinds: workshop" "2017-03-07T10:00:00Z"
          "2017-03-07T11:30:00Z".
Definition twenty : Event :=
  mkEvent "SolarWinds: call" "2017-03-07T10:00:00Z" "2017-03-07T10:20:00Z".

(** An event more than 292 years long, and one that ends more than 292
    years before it starts. *)
Definition centuries : Event :=
  mkEvent "SolarWinds: archive" "1700-01-01T00:00:00Z"
          "2017-03-07T10:00:00Z".
Definition centuriesBack : Event :=
  mkEvent "SolarWinds: rewind" "2017-03-07T10:00:00Z"
          "1700-01-01T00:00:00Z".

(** An event that starts exactly at the end of the week and ends an hour
    before it starts. *)
Definition backwards : Event :=
  mkEvent "SolarWinds: undo" "2017-03-12T23:59:59Z" "2017-03-12T22:59:59Z".

(** A title that differs from the prefix by case only. *)
Definition lowerCase : Event :=
  mkEvent "solarwinds: standup" "2017-03-06T09:00:00Z" "".

(** The clock of Warsaw in 2017: one hour east of UTC, and two hours from
    26 March 01:00 UTC to 29 October 01:00 UTC.  The changes of other years
    are left out. *)
Definition Warsaw : Location :=
  mkLocation
    (fun unix =>
       if unix <? 1490490000 then mkZone 3600 Int64.min_int 1490490000
       else if unix <? 1509238800 then mkZone 7200 1490490000 1509238800
       else mkZone 3600 1509238800 Int64.max_int).

(** Wednesday 22 March 2017, noon, in Warsaw: the clock is put forward on
    the Sunday of that week. *)
Definition springInWarsaw : Time := Date 2017 3 22 12 0 0 Warsaw.

(** Wednesday 12 July 2017, noon, in Warsaw. *)
Definition summerInWarsaw : Time := Date 2017 7 12 12 0 0 Warsaw.

(** Wednesday 25 October 2017, noon, in Warsaw: the clock is put back on
    the Sunday of that week. *)
Definition autumnInWarsaw : Time := Date 2017 10 25 12 0 0 Warsaw.

(** An hour of work in Warsaw on the Saturday before the clock is put
    forward. *)
Definition saturdayInWarsaw : Event :=
  mkEvent "SolarWinds: release" "2017-03-25T10:00:00+01:00"
          "2017-03-25T11:00:00+01:00".

End Examples.

(** ** The calendar, month by month *)

Module Calendar.

Import GoTime.

(** [f] holds at [z], [z + 1], ..., [z + n - 1]. *)
Fixpoint forallZ (n : nat) (z : Z) (f : Z -> bool) : bool :=
  match n with
  | O => true
  | S n' => f z && forallZ n' (z + 1) f
  end.

(** The day number of the first day of the month with index [i], where
    January of year 0 has index 0. *)
Definition monthStart (i : Z) : Z :=
  days_from_civil (i / 12) (i mod 12 + 1) 1.

Definition dateEqb (a b : Z * Z * Z) : bool :=
  let '(y, m, d) := a in
  let '(y', m', d') := b in
  (y =? y') && (m =? m') && (d =? d').

(** The month with index [i] has the length the calendar gives it, and
    its days are numbered 1, 2, ... in it. *)
Definition monthOk (i : Z) : bool :=
  let len := monthStart (i + 1) - monthStart i in
  (len =? RFC3339.daysIn (i mod 12 + 1) (i / 12))
  && forallZ (Z.to_nat len) 0
       (fun k =>
          dateEqb (civil_from_days (monthStart i + k))
                  (i / 12, i mod 12 + 1, 1 + k)).

End Calendar.

(** ** What is asked of the calendar service *)

Module Range.

Import GoTime Summary.

(** [TimeMin] and [TimeMax] of the events request of [main.go]. *)
Definition timeMin (now : Time) : Time :=
  Date (Year now) 0 0 0 0 0 (loc now).
Definition timeMax (now : Time) : Time := monthEnd (windowsOf now).

End Range.

(** ** Views of a run *)

Module Views.

Import Float64 GoTime Summary Notions.

Section Views.

Variable parse : string -> option Time.
Variable w : Windows.

(** What the loop of [main.go] prints for a matching event. *)
Definition linesOf (ev : Event) : list Output :=
  errorOf parse (StartDateTime ev) ++ errorOf parse (EndDateTime ev)
  ++ [OutEvent (startTimeOf parse ev) (durationOf parse ev) (Summary ev)].

(** What the two earlier programs print for a matching event. *)
Definition earlierLinesOf (ev : Event) : list Output :=
  errorOf parse (StartDateTime ev) ++ errorOf parse (EndDateTime ev)
  ++ [OutValue (Summary ev); OutHours (durationOf parse ev); OutBlank].

(** The matching events of the week, and of the month. *)
Definition weekEvents (items : list Event) : list Event :=
  filter (fun ev => startsWithPrefix ev && inWeek parse w ev) items.
Definition monthEvents (items : list Event) : list Event :=
  filter (fun ev => startsWithPrefix ev && inMonth parse w ev) items.

(** The week lies inside the month. *)
Definition weekInsideMonth : Prop :=
  Unix (monthBegin w) <= Unix (weekBegin w)
  /\ Unix (weekEnd w) <= Unix (monthEnd w).

End Views.

(** The variables of the two versions of the loop agree. *)
Definition agree (s : Summary.State) (e : Earlier.State) : Prop :=
  today s = Earlier.today e
  /\ weekTotal s = Earlier.weekTotal e
  /\ workDaysInWeek s = Earlier.workDaysInWeek e
  /\ monthTotal s = Earlier.monthTotal e
  /\ workDaysInMonth s = Earlier.workDaysInMonth e.

(** How far into the days [lo], ..., [hi] the day [d] reaches. *)
Definition reach (lo hi d : Z) : Z := Z.max 0 (Z.min d hi - lo + 1).

(** The matching events of the window [inWindow] start on the days [lo],
    ..., [hi]. *)
Definition windowDays (parse : string -> option Time)
    (inWindow : Event -> bool) (lo hi : Z) (items : list Event) : Prop :=
  Forall (fun ev => startsWithPrefix ev = true -> inWindow ev = true ->
                    lo <= localDay (startTimeOf parse ev) <= hi) items.

(** The clock of the location [l] is not changed between the instant at
    which a clock kept in UTC reads [reading] and the instant at which the
    clock of [l] does: [l] has one offset at every second from the one to
    the other. *)
Definition steady (l : Location) (reading : Z) : Prop :=
  forall x,
    Z.min reading (reading - offsetAt l reading) <= x
    <= Z.max reading (reading - offsetAt l reading) ->
    offsetAt l x = offsetAt l reading.

(** The clock of the location is never changed: its offset is [off] at
    all times. *)
Definition constantOffset (l : Location) (off : Z) : Prop :=
  forall x, offsetAt l x = off.

(** No offset of the location is more than [bound] seconds away from
    UTC. *)
Definition offsetsWithin (bound : Z) (l : Location) : Prop :=
  forall x, - bound <= offsetAt l x <= bound.

(** The matching events are written with the offset of [now] and do not
    end before they start. *)
Definition localEvents (parse : string -> option Time) (now : Time)
    (items : list Event) : Prop :=
  Forall (fun ev => startsWithPrefix ev = true ->
                    offset (startTimeOf parse ev) = offset now
                    /\ Unix (startTimeOf parse ev)
                       <= Unix (endTimeOf parse ev)) items.

(** The two window lines [main] prints first. *)
Definition windowLines (now : Time) : list Output :=
  [OutWindow (monthBegin (windowsOf now)) (monthEnd (windowsOf now));
   OutWindow (weekBegin (windowsOf now)) (weekEnd (windowsOf now))].

(** The two total lines [main] prints last. *)
Definition totalLines (r : Report) : list Output :=
  [OutTotal "week total" (weekTotal (final r)) (weekTargetTotal r)
     (neg (sub (weekTargetTotal r) (weekTotal (final r))));
   OutTotal "month total" (monthTotal (final r)) (monthTargetTotal r)
     (neg (sub (monthTargetTotal r) (monthTotal (final r))))].

End Views.

(** ** The first program

    The first program of the repository has no windows and no totals: its
    loop prints the title and the hours of every matching event. *)

Module First.

Import Float64 GoTime Summary.

Section Loop.

Variable parse : string -> option Time.

Definition forEvent (o : list Output) (ev : Event) : list Output :=
  if negb (HasPrefix (Summary ev) titlePrefix) then o
  else
    let startTime := timeOf parse (StartDateTime ev) in
    let endTime := timeOf parse (EndDateTime ev) in
    o ++ errorOf parse (StartDateTime ev) ++ errorOf parse (EndDateTime ev)
      ++ [OutValue (Summary ev); OutHours (Hours (Sub endTime startTime));
          OutBlank].

Definition forEvents (o : list Output) (items : list Event) : list Output :=
  fold_left forEvent items o.

End Loop.

End First.

(** ** The token cache of [main.go] *)

Module TokenCache.

(** What the functions of the token cache print. *)
Inductive Message : Type :=
| MsgAuthorize (authURL : string)
    (* fmt.Printf("Go to the following link in your browser then type the
       authorization code: \n%v\n", authURL) *)
| MsgSaving (file : string)
    (* fmt.Printf("Saving credential file to: %s\n", file) *).

(** The part of the machine the functions touch: the content of the files
    that can be opened for reading, the words still to be read from
    standard input, and standard output. *)
Record World : Type := mkWorld {
  files : string -> option string;
  stdin : list string;
  printed : list Message
}.

(** A value or a non-nil error. *)
Inductive Result (A : Type) : Type :=
| Err (e : string)
| Ok (a : A).
Arguments Err {A} e.
Arguments Ok {A} a.

(** A call ends in [log.Fatalf] or returns; either way it leaves a world. *)
Inductive Outcome (A : Type) : Type :=
| Fatal (w : World) (msg : string)
| Done (w : World) (a : A).
Arguments Fatal {A} w msg.
Arguments Done {A} w a.

Definition print (m : Message) (w : World) : World :=
  {| files := files w; stdin := stdin w; printed := printed w ++ [m] |}.

(** The file [file] is created or truncated and [content] written. *)
Definition write (file content : string) (w : World) : World :=
  {| files := fun f => if String.eqb f file then Some content else files w f;
     stdin := stdin w;
     printed := printed w |}.

Section Env.

(** [oauth2.Token]. *)
Variable Token : Type.
(** [user.Current()]: the home directory of the user, or an error. *)
Variable currentUser : Result string.
(** [filepath.Join] and [url.QueryEscape]. *)
Variable Join : string -> string -> string.
Variable QueryEscape : string -> string.
(** [json.NewDecoder(f).Decode(t)] on the content of a file, and what
    [json.NewEncoder(f).Encode(token)] writes. *)
Variable decode : string -> option Token.
Variable encode : Token -> string.
(** [config.AuthCodeURL("state-token", oauth2.AccessTypeOffline)] and
    [config.Exchange(oauth2.NoContext, code)]. *)
Variable authCodeURL : string.
Variable Exchange : string -> Result Token.
(** [os.OpenFile(file, os.O_RDWR|os.O_CREATE|os.O_TRUNC, 0600)]. *)
Variable openFile : string -> Result unit.

(** [tokenCacheFile]; [os.MkdirAll] is called for its effect on the
    directories, which are not part of [World], and its error is dropped. *)
Definition tokenCacheFile : Result string :=
  match currentUser with
  | Err e => Err e
  | Ok homeDir =>
      let tokenCacheDir := Join homeDir ".credentials" in
      Ok (Join tokenCacheDir (QueryEscape "calendar-go-quickstart.json"))
  end.

(** [tokenFromFile]: [None] is a non-nil error, from [os.Open] or from
    the decoder. *)
Definition tokenFromFile (file : string) (w : World) : option Token :=
  match files w file with
  | None => None
  | Some content => decode content
  end.

(** [getTokenFromWeb]. *)
Definition getTokenFromWeb (w : World) : Outcome Token :=
  let w1 := print (MsgAuthorize authCodeURL) w in
  match stdin w1 with
  | [] => Fatal w1 "Unable to read authorization code EOF"
  | code :: rest =>
      let w2 :=
        {| files := files w1; stdin := rest; printed := printed w1 |} in
      match Exchange code with
      | Err e => Fatal w2 ("Unable to retrieve token from web " ++ e)
      | Ok tok => Done w2 tok
      end
  end.

(** [saveToken]. *)
Definition saveToken (file : string) (token : Token) (w : World)
    : Outcome unit :=
  let w1 := print (MsgSaving file) w in
  match openFile file with
  | Err e => Fatal w1 ("Unable to cache oauth token: " ++ e)
  | Ok _ => Done (write file (encode token) w1) tt
  end.

(** [getClient]; the answer is the token the client is made with. *)
Definition getClient (w : World) : Outcome Token :=
  match tokenCacheFile with
  | Err e =>
      Fatal w ("Unable to get path to cached credential file. " ++ e)
  | Ok cacheFile =>
      match tokenFromFile cacheFile w with
      | Some tok => Done w tok
      | None =>
          match getTokenFromWeb w with
          | Fatal w' msg => Fatal w' msg
          | Done w1 tok =>
              match saveToken cacheFile tok w1 with
              | Fatal w' msg => Fatal w' msg
              | Done w2 _ => Done w2 tok
              end
          end
      end
  end.

End Env.

(** The world a call leaves behind. *)
Definition worldOf {A : Type} (o : Outcome A) : World :=
  match o with
  | Fatal w _ => w
  | Done w _ => w
  end.

End TokenCache.

(** A machine for the worked examples of the token cache: tokens are
    strings stored as they are, the only authorization code accepted is
    [4/secret], and the cache file can always be written. *)

Module CacheExample.

Import TokenCache.

Definition join (a b : string) : string := (a ++ "/" ++ b)%string.
Definition exchange (code : string) : Result string :=
  if String.eqb code "4/secret"%string then Ok ("token:" ++ code)%string
  else Err "invalid_grant"%string.
Definition getClient : World -> Outcome string :=
  TokenCache.getClient string (Ok "/home/user"%string) join (fun s => s)
    (fun s => Some s) (fun t => t) "https://accounts.example/auth"%string exchange
    (fun _ => Ok tt).
Definition path : string := "/home/user/.credentials/calendar-go-quickstart.json"%string.
Definition fresh : World :=
  mkWorld (fun _ => None) ["4/secret"%string; "more"%string] [].

End CacheExample.

(** ** The program as a whole *)

Module Program.

Import GoTime Summary.

(** A line of standard output: one of the token cache or one of the
    report. *)
Inductive Line : Type :=
| CacheLine (m : TokenCache.Message)
| ReportLine (o : Output).

(** Standard output when the token cache has left the world [w] and the
    report part of [main] has printed [o] after it. *)
Definition lines (w : TokenCache.World) (o : list Output) : list Line :=
  map CacheLine (TokenCache.printed w) ++ map ReportLine o.

(** A run ends in [log.Fatalf] or at the end of [main]; either way it
    leaves a world and has printed its lines. *)
Inductive Outcome : Type :=
| Fatal (w : TokenCache.World) (printed : list Line) (msg : string)
| Done (w : TokenCache.World) (printed : list Line) (r : Report).

Section Env.

(** [oauth2.Config], [oauth2.Token], [calendar.Service] and
    [calendar.CalendarListEntry]. *)
Variable Config Token Service Calendar : Type.
(** The text of the error of [ioutil.ReadFile] for a file that cannot be
    read. *)
Variable readError : string -> string.
(** [google.ConfigFromJSON(b, calendar.CalendarReadonlyScope)]. *)
Variable ConfigFromJSON : string -> TokenCache.Result Config.
(** What the token cache calls, as in [TokenCache]; the link and the
    exchange are those of the configuration. *)
Variable currentUser : TokenCache.Result string.
Variable Join : string -> string -> string.
Variable QueryEscape : string -> string.
Variable decode : string -> option Token.
Variable encode : Token -> string.
Variable AuthCodeURL : Config -> string.
Variable Exchange : Config -> string -> TokenCache.Result Token.
Variable openFile : string -> TokenCache.Result unit.
(** [calendar.New(config.Client(ctx, tok))]. *)
Variable New : Config -> Token -> TokenCache.Result Service.
(** [srv.CalendarList.List().ShowHidden(false).Do()]: an error, or the
    items of the list, or a nil list. *)
Variable CalendarList : Service -> TokenCache.Result (option (list Calendar)).
(** [srv.Events.List(cal.Id)...TimeMin(.).TimeMax(.)...Do()]. *)
Variable Events : Service -> Calendar -> Time -> Time -> Fetch.
(** [time.Now()]. *)
Variable Now : Time.
(** [time.Parse(time.RFC3339, .)]. *)
Variable parse : string -> option Time.

Definition getClient (config : Config)
    : TokenCache.World -> TokenCache.Outcome Token :=
  TokenCache.getClient Token currentUser Join QueryEscape decode encode
    (AuthCodeURL config) (Exchange config) openFile.

(** The events requests of the loop, one per calendar of the list. *)
Definition answers (srv : Service) (items : list Calendar) : list Fetch :=
  map (fun cal => Events srv cal (Range.timeMin Now) (Range.timeMax Now))
      items.

(** [main], from its first line to its last. *)
Definition main (w : TokenCache.World) : Outcome :=
  match TokenCache.files w "client_secret.json" with
  | None =>
      Fatal w (lines w [])
            ("Unable to read client secret file: "
             ++ readError "client_secret.json")
  | Some b =>
  match ConfigFromJSON b with
  | TokenCache.Err e =>
      Fatal w (lines w [])
            ("Unable to parse client secret file to config: " ++ e)
  | TokenCache.Ok config =>
  match getClient config w with
  | TokenCache.Fatal w1 msg => Fatal w1 (lines w1 []) msg
  | TokenCache.Done w1 tok =>
  match New config tok with
  | TokenCache.Err e =>
      Fatal w1 (lines w1 []) ("Unable to retrieve calendar Client " ++ e)
  | TokenCache.Ok srv =>
  match CalendarList srv with
  | TokenCache.Err e =>
      Fatal w1 (lines w1 [])
            ("Unable to retrieve user's calendars list. " ++ e)
  | TokenCache.Ok None =>
      Fatal w1 (lines w1 [])
            "Unable to retrieve user's calendars list. <nil>"
  | TokenCache.Ok (Some list) =>
      match Summary.main parse Now (answers srv list) with
      | Summary.Fatal o msg => Fatal w1 (lines w1 o) msg
      | Summary.Done r => Done w1 (lines w1 (stdout r)) r
      end
  end end end end end.

End Env.

End Program.

(** A machine for the worked examples of the whole program: on top of the
    one of [CacheExample], the client secret is the file [{}], there are
    two calendars, [work] and [home], and it is noon on Wednesday
    8 March 2017, UTC. *)

Module ProgramExample.

Import Summary TokenCache.

(** The machine, with the events of each calendar left open. *)
Definition machine (events : string -> list Event)
    : World -> Program.Outcome :=
  Program.main string string string string
    (fun name => "no such file or directory"%string)
    (fun b => Ok b)
    (Ok "/home/user"%string) CacheExample.join (fun s => s)
    (fun s => Some s) (fun t => t)
    (fun config => "https://accounts.example/auth"%string)
    (fun config => CacheExample.exchange)
    (fun _ => Ok tt)
    (fun config tok => Ok tok)
    (fun srv => Ok (Some ["work"%string; "home"%string]))
    (fun srv cal timeMin timeMax => FetchOk (events cal))
    Examples.now RFC3339.parse.

(** The events of the specification's example in the calendar [work]. *)
Definition work (cal : string) : list Event :=
  if String.eqb cal "work"%string
  then [Examples.standup; Examples.review; Examples.lunch]
  else [].

(** No event with the prefix in any calendar. *)
Definition idle (cal : string) : list Event :=
  if String.eqb cal "work"%string
  then [Examples.lunch; Examples.lowerCase]
  else [].

(** A first run: the client secret is there, the token cache is not, and
    the authorization code is typed in. *)
Definition fresh : World :=
  mkWorld
    (fun f => if String.eqb f "client_secret.json"%string
              then Some "{}"%string else None)
    ["4/secret"%string] [].

(** A later run: the token is in the cache file. *)
Definition cached : World :=
  mkWorld
    (fun f => if String.eqb f "client_secret.json"%string
              then Some "{}"%string
              else if String.eqb f CacheExample.path
              then Some "token:4/secret"%string else None)
    [] [].

End ProgramExample.

(** * Properties *)

Import Float64 GoTime Summary Notions.

(** ** The loop, one event at a time *)

(** The three ways through the body of the loop: the title matches and the
    day is the one last seen; it matches on another day; it does not
    match. *)
Ltac forEvent_cases parse st ev :=
  unfold forEvent, dayChange;
  destruct (matches ev); simpl;
  [destruct (Day (startTimeOf parse ev) =? today st); simpl|].

Section Steps.

Variable parse : string -> option Time.
Variable w : Windows.

Lemma forEvent_other (st : State) (ev : Event) :
  startsWithPrefix ev = false -> forEvent parse w st ev = st.
Proof.
  intros H. unfold forEvent, matches.
  unfold startsWithPrefix in H. now rewrite H.
Qed.

Lemma forEvents_cons (st : State) (ev : Event) (rest : list Event) :
  forEvents parse w st (ev :: rest)
  = forEvents parse w (forEvent parse w st ev) rest.
Proof. reflexivity. Qed.

Lemma forEvents_app (st : State) (l1 l2 : list Event) :
  forEvents parse w st (l1 ++ l2)
  = forEvents parse w (forEvents parse w st l1) l2.
Proof. unfold forEvents. apply fold_left_app. Qed.

Lemma forEvents_filter (st : State) (items : list Event) :
  forEvents parse w st (filter startsWithPrefix items)
  = forEvents parse w st items.
Proof.
  revert st. induction items as [|ev rest IH]; intros st; [reflexivity|].
  simpl filter. destruct (startsWithPrefix ev) eqn:E.
  - rewrite !forEvents_cons. apply IH.
  - rewrite forEvents_cons, (forEvent_other _ _ E). apply IH.
Qed.

Lemma forCalendars_onlyMatching (st : State) (cals : list Fetch) :
  forCalendars parse w st (onlyMatching cals) = forCalendars parse w st cals.
Proof.
  revert st. induction cals as [|c rest IH]; intros st; [reflexivity|].
  destruct c as [err|items]; simpl; [reflexivity|].
  rewrite forEvents_filter. apply IH.
Qed.

(** The counters after an event whose day is the one last seen. *)
Lemma dayChange_same_day (st : State) (ev : Event) :
  Day (startTimeOf parse ev) = today st -> dayChange parse w st ev = st.
Proof.
  intros H. unfold dayChange. rewrite H, Z.eqb_refl. reflexivity.
Qed.

(** The tracker after a matching event is the day of its start. *)
Lemma today_after (st : State) (ev : Event) :
  startsWithPrefix ev = true ->
  today (forEvent parse w st ev) = Day (startTimeOf parse ev).
Proof.
  intros H. unfold forEvent, matches. unfold startsWithPrefix in H.
  rewrite H. simpl. unfold dayChange.
  destruct (Day (startTimeOf parse ev) =? today st) eqn:E; simpl.
  - symmetry. now apply Z.eqb_eq.
  - reflexivity.
Qed.

(** An event in neither window leaves the totals and the counters. *)
Lemma forEvent_out_of_windows (st : State) (ev : Event) :
  inWeek parse w ev = false -> inMonth parse w ev = false ->
  sameResults (forEvent parse w st ev) st.
Proof.
  intros Hw Hm. unfold sameResults.
  forEvent_cases parse st ev; rewrite ?Hw, ?Hm; tauto.
Qed.

End Steps.

Lemma prefix_spec (p s : string) :
  String.prefix p s = true <-> exists rest, s = (p ++ rest)%string.
Proof.
  revert s. induction p as [|c p IH]; intros s.
  - destruct s; simpl; (split; [intros _; eexists; reflexivity | reflexivity]).
  - destruct s as [|c' s]; simpl;
      [split; [discriminate | intros [r Hr]; discriminate]|].
    destruct (Ascii.ascii_dec c c') as [->|Hne].
    + rewrite IH. split; intros [r Hr]; exists r; congruence.
    + split; [discriminate | intros [r Hr]; congruence].
Qed.

(** ** Events whose title does not start with the prefix *)

(** C10.  Processing an event whose title does not start with the prefix
    gives back the state it was given: the totals, the day counters, the
    last-seen day, the two saved times and standard output are all the same.
    No timestamp of the event is parsed: whatever the parser does, and
    whatever it would answer for the timestamps of this event, the result is
    the same and no line is printed; a run with the event is the run
    without it. *)
Theorem nonmatching_event_leaves_state
    (parse parse' : string -> option Time) (w : Windows) (st : State)
    (ev : Event) :
  HasPrefix (Summary ev) titlePrefix = false ->
  forEvent parse w st ev = st
  /\ forEvent parse' w st ev = forEvent parse w st ev
  /\ out (forEvent parse w st ev) = out st
  /\ forall pre post,
       forEvents parse w st (pre ++ ev :: post)
       = forEvents parse w st (pre ++ post).
Proof.
  intros H.
  assert (E : forall p st', forEvent p w st' ev = st')
    by (intros; now apply forEvent_other).
  repeat split.
  - apply E.
  - now rewrite !E.
  - now rewrite E.
  - intros pre post. rewrite !forEvents_app, forEvents_cons. now rewrite E.
Qed.

Lemma nonmatching_event_leaves_state_witness :
  forEvent RFC3339.parse Examples.week (initial []) Examples.lowerCase
  = initial []
  /\ RFC3339.parse (EndDateTime Examples.lowerCase) = None.
Proof.
  split; [|reflexivity].
  apply (nonmatching_event_leaves_state RFC3339.parse RFC3339.parse
           Examples.week (initial []) Examples.lowerCase).
  reflexivity.
Defined.

(** C6.  Titles are matched by an exact, case-sensitive prefix test against
    [SolarWinds], and an event whose title does not pass it is excluded
    whatever its timestamps are: the whole report (totals, day counters,
    targets and every printed line) is the report of the same answers with
    those events removed, and every per-event line that is printed carries
    a title that starts with the prefix. *)
Theorem titles_without_prefix_are_excluded
    (parse : string -> option Time) (now : Time) (cals : list Fetch) :
  (forall ev,
      startsWithPrefix ev = true
      <-> exists rest, Summary ev = ("SolarWinds" ++ rest)%string)
  /\ main parse now cals = main parse now (onlyMatching cals)
  /\ forall items st t d title,
       In (OutEvent t d title)
          (out (forEvents parse (windowsOf now) st items)) ->
       In (OutEvent t d title) (out st)
       \/ exists rest, title = ("SolarWinds" ++ rest)%string.
Proof.
  split; [|split].
  - intros ev. unfold startsWithPrefix, HasPrefix, titlePrefix.
    apply prefix_spec.
  - unfold main, aggregate. now rewrite forCalendars_onlyMatching.
  - intros items. induction items as [|ev rest IH]; intros st t d title Hin.
    + now left.
    + rewrite forEvents_cons in Hin. apply IH in Hin.
      destruct Hin as [Hin|Hin]; [|now right].
      unfold forEvent in Hin. destruct (matches ev) eqn:E; simpl in Hin.
      * assert (Hd : out (dayChange parse (windowsOf now) st ev) = out st).
        { unfold dayChange.
          destruct (Day (startTimeOf parse ev) =? today st); reflexivity. }
        rewrite Hd in Hin.
        rewrite !in_app_iff in Hin.
        destruct Hin as [Hin|[Hin|[Hin|Hin]]].
        -- now left.
        -- unfold errorOf in Hin.
           destruct (parse (StartDateTime ev)); simpl in Hin;
             [tauto | destruct Hin as [Hin|[]]; discriminate].
        -- unfold errorOf in Hin.
           destruct (parse (EndDateTime ev)); simpl in Hin;
             [tauto | destruct Hin as [Hin|[]]; discriminate].
        -- destruct Hin as [Hin|[]]. inversion Hin; subst.
           right. apply prefix_spec. exact E.
      * now left.
Qed.

Lemma titles_without_prefix_are_excluded_witness :
  main RFC3339.parse Examples.now Examples.example
  = main RFC3339.parse Examples.now (onlyMatching Examples.example)
  /\ onlyMatching Examples.example
     = [FetchOk [Examples.standup; Examples.review]].
Proof.
  split; [|reflexivity].
  apply (titles_without_prefix_are_excluded
           RFC3339.parse Examples.now Examples.example).
Defined.

(** ** The day check *)

Lemma forEvent_same_day_counters
    (parse : string -> option Time) (w : Windows) (st : State) (ev : Event) :
  Day (startTimeOf parse ev) = today st ->
  workDaysInWeek (forEvent parse w st ev) = workDaysInWeek st
  /\ workDaysInMonth (forEvent parse w st ev) = workDaysInMonth st.
Proof.
  intros H. unfold forEvent. destruct (matches ev); simpl; [|tauto].
  rewrite (dayChange_same_day parse w st ev H). tauto.
Qed.

(** C9.  The day check looks at the day of the month of the start time and
    at nothing else.  An event whose start day of the month equals the day
    last seen leaves [workDaysInWeek] and [workDaysInMonth] as they are,
    whichever month, calendar or date the event that set the last-seen day
    belonged to; this holds for the loop of [main.go] and for its earlier
    version.  The day last seen is carried from one calendar to the next:
    the events of the second calendar are processed in the state the first
    one ended in. *)
Theorem same_day_of_month_never_counts
    (parse : string -> option Time) (w : Windows) (ev : Event) :
  (forall st : Summary.State,
      Day (startTimeOf parse ev) = today st ->
      workDaysInWeek (forEvent parse w st ev) = workDaysInWeek st
      /\ workDaysInMonth (forEvent parse w st ev) = workDaysInMonth st)
  /\ (forall st : Earlier.State,
        Day (startTimeOf parse ev) = Earlier.today st ->
        Earlier.workDaysInWeek (Earlier.forEvent parse w st ev)
        = Earlier.workDaysInWeek st
        /\ Earlier.workDaysInMonth (Earlier.forEvent parse w st ev)
           = Earlier.workDaysInMonth st)
  /\ (forall (st : Summary.State) first second,
        forCalendars parse w st [FetchOk first; FetchOk second]
        = Done (forEvents parse w (forEvents parse w st first) second)).
Proof.
  split; [|split]; [intros st H|intros st H|reflexivity].
  - now apply forEvent_same_day_counters.
  - unfold Earlier.forEvent.
    destruct (HasPrefix (Summary ev) titlePrefix); simpl; [|tauto].
    unfold startTimeOf in H. rewrite H, Z.eqb_refl. simpl. tauto.
Qed.

Lemma same_day_of_month_never_counts_witness :
  inWeek RFC3339.parse Examples.week Examples.sixthOfMarch = true
  /\ Month (startTimeOf RFC3339.parse Examples.sixthOfFebruary) = 2
  /\ Month (startTimeOf RFC3339.parse Examples.sixthOfMarch) = 3
  /\ workDaysInWeek (forEvent RFC3339.parse Examples.week
                              Examples.afterFebruary Examples.sixthOfMarch)
     = workDaysInWeek Examples.afterFebruary
  /\ workDaysInMonth (forEvent RFC3339.parse Examples.week
                               Examples.afterFebruary Examples.sixthOfMarch)
     = workDaysInMonth Examples.afterFebruary.
Proof.
  repeat (split; [reflexivity|]).
  apply (proj1 (same_day_of_month_never_counts
                  RFC3339.parse Examples.week Examples.sixthOfMarch)
               Examples.afterFebruary).
  reflexivity.
Defined.

(** ** The windows *)

Section Windows.

Variable parse : string -> option Time.
Variable w : Windows.

Lemma inWeek_spec (ev : Event) :
  inWeek parse w ev = true
  <-> Unix (weekBegin w) < Unix (startTimeOf parse ev)
      /\ Unix (endTimeOf parse ev) < Unix (weekEnd w).
Proof. unfold inWeek. rewrite andb_true_iff, !Z.ltb_lt. tauto. Qed.

Lemma inMonth_spec (ev : Event) :
  inMonth parse w ev = true
  <-> Unix (monthBegin w) < Unix (startTimeOf parse ev)
      /\ Unix (endTimeOf parse ev) < Unix (monthEnd w).
Proof. unfold inMonth. rewrite andb_true_iff, !Z.ltb_lt. tauto. Qed.

Lemma forEvent_not_inWeek (st : State) (ev : Event) :
  inWeek parse w ev = false ->
  weekTotal (forEvent parse w st ev) = weekTotal st
  /\ workDaysInWeek (forEvent parse w st ev) = workDaysInWeek st.
Proof.
  intros H. forEvent_cases parse st ev; rewrite ?H; tauto.
Qed.

Lemma forEvent_not_inMonth (st : State) (ev : Event) :
  inMonth parse w ev = false ->
  monthTotal (forEvent parse w st ev) = monthTotal st
  /\ workDaysInMonth (forEvent parse w st ev) = workDaysInMonth st.
Proof.
  intros H. forEvent_cases parse st ev; rewrite ?H; tauto.
Qed.

Lemma onBoundary_not_inWeek (ev : Event) :
  onBoundary (weekBegin w) (weekEnd w)
             (startTimeOf parse ev) (endTimeOf parse ev) ->
  inWeek parse w ev = false.
Proof.
  intros H. apply not_true_is_false. rewrite inWeek_spec.
  unfold onBoundary in H. lia.
Qed.

Lemma onBoundary_not_inMonth (ev : Event) :
  onBoundary (monthBegin w) (monthEnd w)
             (startTimeOf parse ev) (endTimeOf parse ev) ->
  inMonth parse w ev = false.
Proof.
  intros H. apply not_true_is_false. rewrite inMonth_spec.
  unfold onBoundary in H. lia.
Qed.

Lemma fullyOutside_not_inWeek (ev : Event) :
  fullyOutside (weekBegin w) (weekEnd w)
               (startTimeOf parse ev) (endTimeOf parse ev) ->
  inWeek parse w ev = false.
Proof.
  intros H. apply not_true_is_false. rewrite inWeek_spec.
  unfold fullyOutside in H. lia.
Qed.

Lemma fullyOutside_not_inMonth (ev : Event) :
  fullyOutside (monthBegin w) (monthEnd w)
               (startTimeOf parse ev) (endTimeOf parse ev) ->
  inMonth parse w ev = false.
Proof.
  intros H. apply not_true_is_false. rewrite inMonth_spec.
  unfold fullyOutside in H. lia.
Qed.

End Windows.

(** C4, as the loop has it.  Membership in a window is decided by strict
    comparisons of Unix seconds: an event is in the week exactly when its
    start is after [weekBegin] and its end is before [weekEnd], and in the
    month likewise.  An event outside a window leaves that window's total
    and day counter alone.  So an event whose start is [weekBegin], or whose
    end is [weekEnd], is excluded from the week, and so is an event that
    does not end before it starts and has its start on [weekEnd] or its end
    on [weekBegin]; the same holds for the month. *)
Theorem window_bounds_are_exclusive
    (parse : string -> option Time) (w : Windows) (st : State) (ev : Event) :
  (inWeek parse w ev = true
   <-> Unix (weekBegin w) < Unix (startTimeOf parse ev)
       /\ Unix (endTimeOf parse ev) < Unix (weekEnd w))
  /\ (inMonth parse w ev = true
      <-> Unix (monthBegin w) < Unix (startTimeOf parse ev)
          /\ Unix (endTimeOf parse ev) < Unix (monthEnd w))
  /\ (inWeek parse w ev = false ->
      weekTotal (forEvent parse w st ev) = weekTotal st
      /\ workDaysInWeek (forEvent parse w st ev) = workDaysInWeek st)
  /\ (inMonth parse w ev = false ->
      monthTotal (forEvent parse w st ev) = monthTotal st
      /\ workDaysInMonth (forEvent parse w st ev) = workDaysInMonth st)
  /\ (onBoundary (weekBegin w) (weekEnd w)
                 (startTimeOf parse ev) (endTimeOf parse ev) ->
      inWeek parse w ev = false
      /\ weekTotal (forEvent parse w st ev) = weekTotal st
      /\ workDaysInWeek (forEvent parse w st ev) = workDaysInWeek st)
  /\ (onBoundary (monthBegin w) (monthEnd w)
                 (startTimeOf parse ev) (endTimeOf parse ev) ->
      inMonth parse w ev = false
      /\ monthTotal (forEvent parse w st ev) = monthTotal st
      /\ workDaysInMonth (forEvent parse w st ev) = workDaysInMonth st).
Proof.
  split; [apply inWeek_spec|].
  split; [apply inMonth_spec|].
  split; [apply forEvent_not_inWeek|].
  split; [apply forEvent_not_inMonth|].
  split; intros H.
  - apply onBoundary_not_inWeek in H. split; [exact H|].
    now apply forEvent_not_inWeek.
  - apply onBoundary_not_inMonth in H. split; [exact H|].
    now apply forEvent_not_inMonth.
Qed.

Lemma window_bounds_are_exclusive_witness :
  (Unix (startTimeOf RFC3339.parse Examples.atWeekBegin)
   = Unix (weekBegin Examples.week)
   /\ inWeek RFC3339.parse Examples.week Examples.atWeekBegin = false
   /\ weekTotal (forEvent RFC3339.parse Examples.week (initial [])
                          Examples.atWeekBegin)
      = weekTotal (initial [])
   /\ workDaysInWeek (forEvent RFC3339.parse Examples.week (initial [])
                               Examples.atWeekBegin)
      = workDaysInWeek (initial []))
  /\ (Unix (endTimeOf RFC3339.parse Examples.atWeekEnd)
      = Unix (weekEnd Examples.week)
      /\ inWeek RFC3339.parse Examples.week Examples.atWeekEnd = false
      /\ weekTotal (forEvent RFC3339.parse Examples.week (initial [])
                             Examples.atWeekEnd)
         = weekTotal (initial [])
      /\ workDaysInWeek (forEvent RFC3339.parse Examples.week (initial [])
                                  Examples.atWeekEnd)
         = workDaysInWeek (initial [])).
Proof.
  split; (split; [reflexivity|]).
  - apply (proj1 (proj2 (proj2 (proj2 (proj2
             (window_bounds_are_exclusive RFC3339.parse Examples.week
                (initial []) Examples.atWeekBegin)))))).
    left. reflexivity.
  - apply (proj1 (proj2 (proj2 (proj2 (proj2
             (window_bounds_are_exclusive RFC3339.parse Examples.week
                (initial []) Examples.atWeekEnd)))))).
    right. left. reflexivity.
Defined.

(** C4 as stated fails on an event that ends before it starts: with its
    start exactly on [weekEnd] and its end an hour earlier, the event is in
    the week, is counted as a work day and is added to the week total. *)
Lemma backwards_event_on_boundary_is_included :
  Unix (startTimeOf RFC3339.parse Examples.backwards)
  = Unix (weekEnd Examples.week)
  /\ inWeek RFC3339.parse Examples.week Examples.backwards = true
  /\ workDaysInWeek (forEvent RFC3339.parse Examples.week (initial [])
                              Examples.backwards) = 1
  /\ weekTotal (forEvent RFC3339.parse Examples.week (initial [])
                         Examples.backwards)
     = of_int (-1)
  /\ ~ (weekTotal (forEvent RFC3339.parse Examples.week (initial [])
                            Examples.backwards)
        = weekTotal (initial [])
        /\ workDaysInWeek (forEvent RFC3339.parse Examples.week (initial [])
                                    Examples.backwards)
           = workDaysInWeek (initial [])).
Proof.
  repeat (split; [reflexivity|]).
  intros [_ H]. vm_compute in H. discriminate.
Qed.

(** ** Events outside both windows *)

(** The loop reads standard output nowhere: two states that differ in it
    only stay so. *)
Lemma forEvent_sameVariables
    (parse : string -> option Time) (w : Windows) (a b : State) (ev : Event) :
  sameVariables a b ->
  sameVariables (forEvent parse w a ev) (forEvent parse w b ev).
Proof.
  unfold sameVariables. intros (H1 & H2 & H3 & H4 & H5 & H6 & H7).
  unfold forEvent, dayChange. destruct (matches ev); simpl; [|tauto].
  rewrite H3.
  destruct (Day (startTimeOf parse ev) =? today b); simpl;
    rewrite ?H1, ?H2, ?H3, ?H4, ?H5, ?H6, ?H7; tauto.
Qed.

Lemma forEvents_sameVariables
    (parse : string -> option Time) (w : Windows) (items : list Event) :
  forall a b : State,
    sameVariables a b ->
    sameVariables (forEvents parse w a items) (forEvents parse w b items).
Proof.
  induction items as [|ev rest IH]; intros a b H; [exact H|].
  rewrite !forEvents_cons. apply IH. now apply forEvent_sameVariables.
Qed.

Lemma forEvent_same_day_out_of_windows
    (parse : string -> option Time) (w : Windows) (st : State) (ev : Event) :
  inWeek parse w ev = false -> inMonth parse w ev = false ->
  Day (startTimeOf parse ev) = today st ->
  sameVariables (forEvent parse w st ev) st.
Proof.
  intros Hw Hm Hd. unfold sameVariables, forEvent.
  destruct (matches ev); simpl; [|tauto].
  rewrite (dayChange_same_day parse w st ev Hd), Hw, Hm. tauto.
Qed.

(** C3, as the loop has it.  An event that lies fully outside both the week
    window and the month window is excluded from [weekTotal], [monthTotal],
    [workDaysInWeek] and [workDaysInMonth]: processing it leaves the four
    of them unchanged.  If its title matches, the day last seen becomes the
    day of the month of its start; when that is the day last seen already,
    every variable of the loop is unchanged and so are the variables after
    the rest of the event sequence. *)
Theorem events_outside_both_windows_are_excluded
    (parse : string -> option Time) (w : Windows) (st : State) (ev : Event) :
  fullyOutside (weekBegin w) (weekEnd w)
               (startTimeOf parse ev) (endTimeOf parse ev) ->
  fullyOutside (monthBegin w) (monthEnd w)
               (startTimeOf parse ev) (endTimeOf parse ev) ->
  sameResults (forEvent parse w st ev) st
  /\ (startsWithPrefix ev = true ->
      today (forEvent parse w st ev) = Day (startTimeOf parse ev))
  /\ (Day (startTimeOf parse ev) = today st ->
      sameVariables (forEvent parse w st ev) st
      /\ forall rest,
          sameVariables (forEvents parse w (forEvent parse w st ev) rest)
                        (forEvents parse w st rest)).
Proof.
  intros Hw Hm.
  apply fullyOutside_not_inWeek in Hw. apply fullyOutside_not_inMonth in Hm.
  split; [now apply forEvent_out_of_windows|].
  split; [apply today_after|].
  intros Hd.
  assert (S : sameVariables (forEvent parse w st ev) st)
    by now apply forEvent_same_day_out_of_windows.
  split; [exact S|].
  intros rest. now apply forEvents_sameVariables.
Qed.

Lemma events_outside_both_windows_are_excluded_witness :
  startsWithPrefix Examples.sixthOfFebruary = true
  /\ sameResults
       (forEvent RFC3339.parse Examples.week (initial [])
                 Examples.sixthOfFebruary)
       (initial []).
Proof.
  split; [reflexivity|].
  refine (proj1 (events_outside_both_windows_are_excluded
                   RFC3339.parse Examples.week (initial [])
                   Examples.sixthOfFebruary _ _)).
  - left. vm_compute. split; discriminate.
  - left. vm_compute. split; discriminate.
Defined.

(** C3 as stated fails in its last part.  The event of 6 February lies
    before both windows, and yet processing it changes the day counts of
    what follows: after it the event of Monday 6 March, which is in the
    week and in the month, is not counted as a work day, while without it
    that Monday is counted. *)
Lemma out_of_window_event_changes_later_day_counts :
  startsWithPrefix Examples.sixthOfFebruary = true
  /\ fullyOutside (weekBegin Examples.week) (weekEnd Examples.week)
       (startTimeOf RFC3339.parse Examples.sixthOfFebruary)
       (endTimeOf RFC3339.parse Examples.sixthOfFebruary)
  /\ fullyOutside (monthBegin Examples.week) (monthEnd Examples.week)
       (startTimeOf RFC3339.parse Examples.sixthOfFebruary)
       (endTimeOf RFC3339.parse Examples.sixthOfFebruary)
  /\ workDaysInWeek
       (forEvents RFC3339.parse Examples.week (initial [])
                  [Examples.sixthOfFebruary; Examples.sixthOfMarch]) = 0
  /\ workDaysInMonth
       (forEvents RFC3339.parse Examples.week (initial [])
                  [Examples.sixthOfFebruary; Examples.sixthOfMarch]) = 0
  /\ workDaysInWeek
       (forEvents RFC3339.parse Examples.week (initial [])
                  [Examples.sixthOfMarch]) = 1
  /\ workDaysInMonth
       (forEvents RFC3339.parse Examples.week (initial [])
                  [Examples.sixthOfMarch]) = 1.
Proof.
  split; [reflexivity|].
  split; [left; vm_compute; split; discriminate|].
  split; [left; vm_compute; split; discriminate|].
  repeat split; reflexivity.
Qed.

(** ** Timestamps that do not parse *)

Lemma out_forEvent
    (parse : string -> option Time) (w : Windows) (st : State) (ev : Event) :
  startsWithPrefix ev = true ->
  out (forEvent parse w st ev)
  = out st ++ errorOf parse (StartDateTime ev)
      ++ errorOf parse (EndDateTime ev)
      ++ [OutEvent (startTimeOf parse ev) (durationOf parse ev) (Summary ev)].
Proof.
  intros H. unfold forEvent, matches. unfold startsWithPrefix in H.
  rewrite H. simpl. unfold dayChange.
  destruct (Day (startTimeOf parse ev) =? today st); reflexivity.
Qed.

(** No event stops the run: when every fetch succeeds the loops reach the
    end of [main], having processed the events of all calendars as one
    sequence. *)
Lemma forCalendars_fetched
    (parse : string -> option Time) (w : Windows) (cals : list (list Event)) :
  forall st,
    forCalendars parse w st (map FetchOk cals)
    = Done (forEvents parse w st (List.concat cals)).
Proof.
  induction cals as [|items rest IH]; intros st; simpl; [reflexivity|].
  rewrite IH, forEvents_app. reflexivity.
Qed.

(** C2, as the loop has it.  A parse error is printed and the loop goes on
    with the zero [Time] in place of the timestamp; the event is not
    skipped.  When the start of a matching event does not parse (as for an
    event neither of whose timestamps parses) and the windows begin no
    earlier than the zero [Time], the error is printed, the event is in
    neither window, it adds nothing to [weekTotal] and [monthTotal] and
    leaves [workDaysInWeek] and [workDaysInMonth] unchanged, the day last
    seen becomes 1, the line of the event is printed, and the remaining
    events are processed: a run in which every fetch succeeds reaches its
    end.  When the end does not parse either, the duration is 0. *)
Theorem unparsed_start_adds_nothing
    (parse : string -> option Time) (w : Windows) (st : State) (ev : Event) :
  startsWithPrefix ev = true ->
  parse (StartDateTime ev) = None ->
  Unix zeroTime <= Unix (weekBegin w) ->
  Unix zeroTime <= Unix (monthBegin w) ->
  In (OutParseError (StartDateTime ev)) (out (forEvent parse w st ev))
  /\ inWeek parse w ev = false
  /\ inMonth parse w ev = false
  /\ sameResults (forEvent parse w st ev) st
  /\ today (forEvent parse w st ev) = 1
  /\ In (OutEvent zeroTime (durationOf parse ev) (Summary ev))
        (out (forEvent parse w st ev))
  /\ (parse (EndDateTime ev) = None ->
      In (OutParseError (EndDateTime ev)) (out (forEvent parse w st ev))
      /\ durationOf parse ev = zero)
  /\ (forall rest,
         forEvents parse w st (ev :: rest)
         = forEvents parse w (forEvent parse w st ev) rest)
  /\ (forall pre post cals printed,
         exists r,
           aggregate parse w printed
             (FetchOk (pre ++ ev :: post) :: map FetchOk cals)
           = Done r).
Proof.
  intros Hm Hs Hwb Hmb.
  assert (Hstart : startTimeOf parse ev = zeroTime)
    by (unfold startTimeOf, timeOf; now rewrite Hs).
  assert (Hw : inWeek parse w ev = false).
  { apply not_true_is_false. rewrite inWeek_spec, Hstart. lia. }
  assert (Hmo : inMonth parse w ev = false).
  { apply not_true_is_false. rewrite inMonth_spec, Hstart. lia. }
  rewrite (out_forEvent parse w st ev Hm).
  split.
  { rewrite !in_app_iff. right. left. unfold errorOf. rewrite Hs. now left. }
  split; [exact Hw|]. split; [exact Hmo|].
  split; [now apply forEvent_out_of_windows|].
  split; [now rewrite today_after, Hstart|].
  split.
  { rewrite !in_app_iff. do 3 right. rewrite Hstart. now left. }
  split.
  { intros He. split.
    - rewrite !in_app_iff. right. right. left.
      unfold errorOf. rewrite He. now left.
    - unfold durationOf, endTimeOf, timeOf. rewrite Hstart, He. reflexivity. }
  split; [intros rest; apply forEvents_cons|].
  intros pre post cals printed. unfold aggregate.
  change (FetchOk (pre ++ ev :: post) :: map FetchOk cals)
    with (map FetchOk ((pre ++ ev :: post) :: cals)).
  rewrite forCalendars_fetched. now eexists.
Qed.

Lemma unparsed_start_adds_nothing_witness :
  RFC3339.parse (EndDateTime Examples.allDay) = None
  /\ sameResults
       (forEvent RFC3339.parse Examples.week (initial []) Examples.allDay)
       (initial [])
  /\ today (forEvent RFC3339.parse Examples.week (initial [])
                     Examples.allDay) = 1.
Proof.
  split; [reflexivity|].
  refine ((fun H => conj (proj1 (proj2 (proj2 (proj2 H))))
                         (proj1 (proj2 (proj2 (proj2 (proj2 H))))))
            (unparsed_start_adds_nothing RFC3339.parse Examples.week
               (initial []) Examples.allDay _ _ _ _)).
  - reflexivity.
  - reflexivity.
  - vm_compute. discriminate.
  - vm_compute. discriminate.
Defined.

(** C2 as stated fails.  An event whose start parses and whose end does not
    is processed with the zero [Time] as its end: here it is in the week, it
    is counted as a work day and the minimum duration, in hours, is added to
    the week total.  An all-day event, neither of whose timestamps parses,
    moves the day last seen to 1: the work day of 1 March that follows it
    is not counted, while without the all-day event it is. *)
Lemma unparsed_event_is_not_skipped :
  (startsWithPrefix Examples.halfParsed = true
   /\ RFC3339.parse (EndDateTime Examples.halfParsed) = None
   /\ workDaysInWeek (forEvent RFC3339.parse Examples.week (initial [])
                               Examples.halfParsed) = 1
   /\ weekTotal (forEvent RFC3339.parse Examples.week (initial [])
                          Examples.halfParsed) = Hours minDuration
   /\ ~ sameResults
          (forEvent RFC3339.parse Examples.week (initial [])
                    Examples.halfParsed)
          (initial []))
  /\ (startsWithPrefix Examples.allDay = true
      /\ RFC3339.parse (StartDateTime Examples.allDay) = None
      /\ RFC3339.parse (EndDateTime Examples.allDay) = None
      /\ workDaysInMonth
           (forEvents RFC3339.parse Examples.week (initial [])
                      [Examples.allDay; Examples.firstOfMarch]) = 0
      /\ workDaysInMonth
           (forEvents RFC3339.parse Examples.week (initial [])
                      [Examples.firstOfMarch]) = 1).
Proof.
  split.
  - repeat (split; [reflexivity|]).
    intros (_ & H & _). vm_compute in H. discriminate.
  - repeat split; reflexivity.
Qed.

(** ** The worked example *)

(** C1, as the loop computes it.  On Wednesday 8 March 2017 the week window
    runs from Monday 6 March 00:00:00 to Sunday 12 March 23:59:59.  For the
    three events of the example, in the order given, the run ends normally
    with [weekTotal] = 1.5 hours (half an hour of standup and one hour of
    review; the lunch does not match), [workDaysInWeek] = 1 and a week
    target of 8. *)
Theorem worked_example_totals :
  weekBegin Examples.week = Date 2017 3 6 0 0 0 UTC
  /\ Weekday (weekBegin Examples.week) = 1
  /\ weekEnd Examples.week = Date 2017 3 12 23 59 59 UTC
  /\ Weekday (weekEnd Examples.week) = 0
  /\ exists r,
      main RFC3339.parse Examples.now Examples.example = Done r
      /\ exactly (weekTotal (final r)) (3 # 2)
      /\ workDaysInWeek (final r) = 1
      /\ exactly (weekTargetTotal r) (8 # 1).
Proof.
  repeat (split; [reflexivity|]).
  eexists. split; [vm_compute; reflexivity|].
  repeat split; vm_compute; reflexivity.
Qed.

(** C1 as stated fails: the week total of the example is not 1.0 hour. *)
Lemma worked_example_total_is_not_one :
  ~ exists r,
      main RFC3339.parse Examples.now Examples.example = Done r
      /\ exactly (weekTotal (final r)) (1 # 1)
      /\ workDaysInWeek (final r) = 1
      /\ exactly (weekTargetTotal r) (8 # 1).
Proof.
  intros (r & Hr & H & _).
  vm_compute in Hr. injection Hr as <-.
  vm_compute in H. discriminate.
Qed.

(** ** One count per calendar day *)

Section Days.

Variable parse : string -> option Time.
Variable w : Windows.

Lemma starts_match (ev : Event) (rest : list Event) :
  startsWithPrefix ev = true ->
  starts parse (ev :: rest) = startTimeOf parse ev :: starts parse rest.
Proof. intros H. unfold starts. simpl. now rewrite H. Qed.

Lemma starts_other (ev : Event) (rest : list Event) :
  startsWithPrefix ev = false ->
  starts parse (ev :: rest) = starts parse rest.
Proof. intros H. unfold starts. simpl. now rewrite H. Qed.













(** Ascending instants written in one zone show ascending days. *)
Lemma ascending_sameZone_days (off : Z) (items : list Event) :
  ascending parse items -> sameZone parse off items ->
  ascendingDays parse items.
Proof.
  unfold ascending, sameZone, ascendingDays.
  intros Hs Hz. apply Sorted_StronglySorted in Hs;
    [|intros a b c Hab Hbc; lia].
  induction Hs as [|t ts Hs IH Hhd]; [constructor|].
  inversion Hz as [|t' ts' Ht Hts]; subst.
  constructor; [now apply IH|].
  rewrite Forall_forall in *. intros u Hu.
  unfold localDay. rewrite (Hts u Hu).
  apply Z.div_le_mono; [lia|]. specialize (Hhd u Hu). unfold Unix in Hhd.
  lia.
Qed.

End Days.




(** ** Hours as [float64] *)

Lemma digits2_pos_lower (m : positive) :
  2 ^ (Z.pos (digits2_pos m) - 1) <= Z.pos m.
Proof.
  induction m as [p IH|p IH|]; simpl digits2_pos.
  - rewrite Pos2Z.inj_succ. replace (Z.succ (Z.pos (digits2_pos p)) - 1)
      with (Z.succ (Z.pos (digits2_pos p) - 1)) by lia.
    rewrite Z.pow_succ_r by lia. lia.
  - rewrite Pos2Z.inj_succ. replace (Z.succ (Z.pos (digits2_pos p)) - 1)
      with (Z.succ (Z.pos (digits2_pos p) - 1)) by lia.
    rewrite Z.pow_succ_r by lia. lia.
  - simpl. lia.
Qed.

Lemma digits2_pos_small (m : positive) :
  Z.pos m < 2 ^ 53 -> Z.pos (digits2_pos m) <= 53.
Proof.
  intros H. destruct (Z_le_gt_dec (Z.pos (digits2_pos m)) 53) as [L|G]; [exact L|].
  exfalso. pose proof (digits2_pos_lower m) as Hl.
  assert (2 ^ 53 <= 2 ^ (Z.pos (digits2_pos m) - 1))
    by (apply Z.pow_le_mono_r; lia).
  lia.
Qed.

Lemma iter_xO_value (m k : positive) :
  Z.pos (Pos.iter xO m k) = Z.pos m * 2 ^ Z.pos k.
Proof.
  induction k as [|k IH] using Pos.peano_ind.
  - simpl. lia.
  - rewrite Pos.iter_succ, Pos2Z.inj_succ, Z.pow_succ_r by lia.
    rewrite Pos2Z.inj_xO, IH. lia.
Qed.

Lemma iter_xO_digits (m k : positive) :
  digits2_pos (Pos.iter xO m k) = (digits2_pos m + k)%positive.
Proof.
  induction k as [|k IH] using Pos.peano_ind.
  - simpl. lia.
  - rewrite Pos.iter_succ. simpl. rewrite IH. lia.
Qed.

Lemma binary_round_aux_canonical (s : bool) (m : positive) (e : Z) :
  Z.pos (digits2_pos m) = 53 -> -1074 <= e <= 971 ->
  binary_round_aux prec emax s (Z.pos m) e loc_Exact = S754_finite s m e.
Proof.
  intros Hd He.
  unfold binary_round_aux, shr_fexp, Zdigits2. rewrite Hd.
  assert (F : fexp prec emax (53 + e) - e = 0)
    by (unfold fexp, emin, prec, emax; lia).
  rewrite F. unfold shr at 1.
  cbn [shr_record_of_loc shr_m loc_of_shr_record round_nearest_even].
  rewrite Hd, F. unfold shr. cbn [shr_m].
  assert (L : (e <=? emax - prec) = true)
    by (apply Z.leb_le; unfold emax, prec; lia).
  rewrite L. reflexivity.
Qed.

Lemma binary_round_small (s : bool) (m : positive) :
  Z.pos m < 2 ^ 53 ->
  exists m' e,
    binary_round prec emax s m 0 = S754_finite s m' e
    /\ -52 <= e <= 0
    /\ Z.pos m' = Z.pos m * 2 ^ (- e).
Proof.
  intros H. pose proof (digits2_pos_small m H) as Hd.
  unfold binary_round, shl_align.
  assert (F : fexp prec emax (Z.pos (digits2_pos m) + 0)
              = Z.pos (digits2_pos m) - 53)
    by (unfold fexp, emin, prec, emax; lia).
  rewrite F.
  destruct (Z.pos (digits2_pos m) - 53 - 0) as [|k|k] eqn:E; try lia.
  - exists m, 0. split; [|split; [lia|simpl; lia]].
    apply binary_round_aux_canonical; lia.
  - exists (Pos.iter xO m k), (Z.pos (digits2_pos m) - 53).
    split; [|split; [lia|]].
    + apply binary_round_aux_canonical; [|lia].
      rewrite iter_xO_digits, Pos2Z.inj_add. lia.
    + rewrite iter_xO_value. f_equal. f_equal. lia.
Qed.

Lemma toQ_finite (s : bool) (m m' : positive) (e : Z) :
  -52 <= e <= 0 -> Z.pos m' = Z.pos m * 2 ^ (- e) ->
  exactly (S754_finite s m' e)
          (inject_Z (if s then Z.neg m else Z.pos m)).
Proof.
  intros He Hm. unfold exactly, toQ, Qeq, inject_Z.
  destruct e as [|p|p]; try lia; cbn [Qnum Qden].
  - simpl in Hm. destruct s; lia.
  - rewrite Pos2Z.inj_pow. change (- Z.neg p) with (Z.pos p) in Hm.
    destruct s.
    + change (Z.neg m') with (- Z.pos m'). change (Z.neg m) with (- Z.pos m).
      lia.
    + lia.
Qed.

Lemma of_int_exact (z : Z) :
  - 2 ^ 53 < z < 2 ^ 53 ->
  exactly (of_int z) (inject_Z z)
  /\ (of_int z = zero \/ exists s m e, of_int z = S754_finite s m e).
Proof.
  intros H. unfold of_int, binary_normalize.
  destruct z as [|m|m].
  - split; [reflexivity | now left].
  - destruct (binary_round_small false m) as (m' & e & E & He & Hm); [lia|].
    rewrite E. split; [|right; now repeat eexists].
    now apply (toQ_finite false m m' e).
  - destruct (binary_round_small true m) as (m' & e & E & He & Hm); [lia|].
    rewrite E. split; [|right; now repeat eexists].
    now apply (toQ_finite true m m' e).
Qed.

Lemma Hours_whole (h : Z) :
  - 2 ^ 53 < h < 2 ^ 53 ->
  Hours (h * Hour) = of_int h /\ exactly (Hours (h * Hour)) (inject_Z h).
Proof.
  intros H. destruct (of_int_exact h H) as [Hex Hshape].
  assert (E : Hours (h * Hour) = of_int h).
  { unfold Hours. rewrite Z.quot_mul, Z.rem_mul by discriminate.
    change (div (of_int 0) (of_int (60 * 60 * 1000000000))) with zero.
    destruct Hshape as [-> | (s & m & e & ->)]; reflexivity. }
  split; [exact E | now rewrite E].
Qed.

Lemma wrap_small (z : Z) :
  Int64.min_int <= z <= Int64.max_int -> Int64.wrap z = z.
Proof.
  unfold Int64.min_int, Int64.max_int, Int64.wrap. intros H.
  rewrite Z.mod_small; lia.
Qed.

Lemma Sub_exact (t u : Time) :
  minDuration <= difference t u <= maxDuration -> Sub t u = difference t u.
Proof.
  unfold Sub, difference. intros H.
  destruct (Z.ltb_spec ((sec t - sec u) * Second + (nsec t - nsec u))
                       minDuration); [lia|].
  destruct (Z.ltb_spec maxDuration
                       ((sec t - sec u) * Second + (nsec t - nsec u)));
    [lia|reflexivity].
Qed.

Lemma quarter_hours_exact (q : Z) :
  0 <= q < 2976 ->
  exactly (Hours (q * (15 * 60 * Second))) (q # 4).
Proof.
  intros H.
  assert (C : forallb
                (fun n =>
                   match toQ (Hours (Z.of_nat n * (15 * 60 * Second))) with
                   | Some v => Qeq_bool v (Z.of_nat n # 4)
                   | None => false
                   end) (seq 0 2976) = true)
    by (vm_compute; reflexivity).
  rewrite forallb_forall in C.
  specialize (C (Z.to_nat q)). rewrite Z2Nat.id in C by lia.
  unfold exactly.
  destruct (toQ (Hours (q * (15 * 60 * Second)))) as [v|].
  - apply Qeq_bool_iff. apply C. apply in_seq. lia.
  - assert (false = true) by (apply C; apply in_seq; lia). discriminate.
Qed.

(** Twenty minutes are a third of an hour, which no [float64] is: the
    duration is the nearest one. *)
Lemma twenty_minutes_is_rounded :
  durationOf RFC3339.parse Examples.twenty
  = S754_finite false 6004799503160661 (-54)
  /\ ~ exactly (durationOf RFC3339.parse Examples.twenty) (1 # 3).
Proof.
  split; [reflexivity|]. intros H. vm_compute in H. discriminate.
Qed.

Lemma weekTotal_forEvent
    (parse : string -> option Time) (w : Windows) (st : State) (ev : Event) :
  startsWithPrefix ev = true ->
  weekTotal (forEvent parse w st ev)
  = (if inWeek parse w ev then add (weekTotal st) (durationOf parse ev)
     else weekTotal st)
  /\ monthTotal (forEvent parse w st ev)
     = (if inMonth parse w ev then add (monthTotal st) (durationOf parse ev)
        else monthTotal st).
Proof.
  intros H. unfold forEvent, matches. unfold startsWithPrefix in H.
  rewrite H. simpl. unfold dayChange.
  destruct (Day (startTimeOf parse ev) =? today st); simpl; split; reflexivity.
Qed.

(** C8, as the loop has it.  For a matching event whose timestamps both
    parse and whose algebraic difference end - start fits in a [Duration]
    (an [int64] of nanoseconds, about 292 years either way), the duration is
    [Hours] of exactly that difference: the [float64] sum of the whole hours
    and of the remaining nanoseconds divided by 3.6e12.  It is this value
    that is added to [weekTotal] when the event is in the week and to
    [monthTotal] when it is in the month, and that is printed.  The value is
    the exact number of hours for every whole number of hours and for every
    whole number of quarter hours up to 31 days; a 90-minute event
    contributes exactly 1.5 hours. *)
Theorem duration_is_hours_of_difference
    (parse : string -> option Time) (w : Windows) (st : State) (ev : Event)
    (startTime endTime : Time) :
  startsWithPrefix ev = true ->
  parse (StartDateTime ev) = Some startTime ->
  parse (EndDateTime ev) = Some endTime ->
  minDuration <= difference endTime startTime <= maxDuration ->
  durationOf parse ev = Hours (difference endTime startTime)
  /\ weekTotal (forEvent parse w st ev)
     = (if inWeek parse w ev
        then add (weekTotal st) (Hours (difference endTime startTime))
        else weekTotal st)
  /\ monthTotal (forEvent parse w st ev)
     = (if inMonth parse w ev
        then add (monthTotal st) (Hours (difference endTime startTime))
        else monthTotal st)
  /\ In (OutEvent startTime (Hours (difference endTime startTime))
                  (Summary ev))
        (out (forEvent parse w st ev))
  /\ (forall h,
         difference endTime startTime = h * Hour ->
         exactly (durationOf parse ev) (inject_Z h))
  /\ (forall q,
         0 <= q < 2976 ->
         difference endTime startTime = q * (15 * 60 * Second) ->
         exactly (durationOf parse ev) (q # 4))
  /\ (difference endTime startTime = 90 * 60 * Second ->
      exactly (durationOf parse ev) (3 # 2)
      /\ (inWeek parse w ev = true -> weekTotal st = zero ->
          exactly (weekTotal (forEvent parse w st ev)) (3 # 2))).
Proof.
  intros Hm Hs He Hfit.
  assert (Hstart : startTimeOf parse ev = startTime)
    by (unfold startTimeOf, timeOf; now rewrite Hs).
  assert (Hend : endTimeOf parse ev = endTime)
    by (unfold endTimeOf, timeOf; now rewrite He).
  assert (Hd : durationOf parse ev = Hours (difference endTime startTime))
    by (unfold durationOf; now rewrite Hstart, Hend, Sub_exact).
  destruct (weekTotal_forEvent parse w st ev Hm) as [Hwt Hmt].
  rewrite Hd in Hwt, Hmt.
  split; [exact Hd|]. split; [exact Hwt|]. split; [exact Hmt|].
  split.
  { rewrite (out_forEvent parse w st ev Hm), !in_app_iff. do 3 right.
    rewrite Hstart, Hd. now left. }
  split.
  { intros h Hh. rewrite Hd, Hh. apply Hours_whole.
    unfold minDuration, maxDuration, Int64.min_int, Int64.max_int in Hfit.
    rewrite Hh in Hfit. unfold Hour, Second in Hfit. lia. }
  split.
  { intros q Hq Hdq. rewrite Hd, Hdq. now apply quarter_hours_exact. }
  intros H90. rewrite Hd, H90. split; [vm_compute; reflexivity|].
  intros Hin Hz. rewrite Hwt, Hin, Hz, H90. vm_compute. reflexivity.
Qed.

Lemma duration_is_hours_of_difference_witness :
  difference (endTimeOf RFC3339.parse Examples.ninety)
             (startTimeOf RFC3339.parse Examples.ninety)
  = 90 * 60 * Second
  /\ exactly (durationOf RFC3339.parse Examples.ninety) (3 # 2)
  /\ exactly (weekTotal (forEvent RFC3339.parse Examples.week (initial [])
                                  Examples.ninety)) (3 # 2).
Proof.
  split; [reflexivity|].
  refine ((fun H => conj (proj1 H) (proj2 H _ _))
            (proj2 (proj2 (proj2 (proj2 (proj2 (proj2
               (duration_is_hours_of_difference RFC3339.parse Examples.week
                  (initial []) Examples.ninety
                  (startTimeOf RFC3339.parse Examples.ninety)
                  (endTimeOf RFC3339.parse Examples.ninety) _ _ _ _))))))
               _)).
  - reflexivity.
  - reflexivity.
  - reflexivity.
  - reflexivity.
  - reflexivity.
  - vm_compute. split; discriminate.
  - reflexivity.
Defined.

(** C8 as stated fails when the difference does not fit in a [Duration].
    The event starts in the week and ends more than 292 years earlier; both
    timestamps parse and the event is in the week.  [Sub] answers the
    minimum duration, and what is added to the week total is that minimum
    in hours, about -2562047.8, not the algebraic difference of about
    -2780338 hours.  The same happens, with the maximum, to the duration
    printed for the event that runs forward over the same span. *)
Lemma duration_saturates :
  startsWithPrefix Examples.centuriesBack = true
  /\ RFC3339.parse (StartDateTime Examples.centuriesBack)
     = Some (Date 2017 3 7 10 0 0 UTC)
  /\ RFC3339.parse (EndDateTime Examples.centuriesBack)
     = Some (Date 1700 1 1 0 0 0 UTC)
  /\ inWeek RFC3339.parse Examples.week Examples.centuriesBack = true
  /\ difference (Date 1700 1 1 0 0 0 UTC) (Date 2017 3 7 10 0 0 UTC)
     = -10009216800 * Second
  /\ weekTotal (forEvent RFC3339.parse Examples.week (initial [])
                         Examples.centuriesBack)
     = Hours minDuration
  /\ ~ exactly (weekTotal (forEvent RFC3339.parse Examples.week (initial [])
                                    Examples.centuriesBack))
               (-10009216800 # 3600)
  /\ durationOf RFC3339.parse Examples.centuries = Hours maxDuration
  /\ ~ exactly (durationOf RFC3339.parse Examples.centuries)
               (10009216800 # 3600).
Proof.
  repeat (split; [reflexivity|]).
  split; [intros H; vm_compute in H; discriminate|].
  split; [reflexivity|].
  intros H; vm_compute in H; discriminate.
Qed.

(** ** The targets *)

Section Bounds.

Variable parse : string -> option Time.
Variable w : Windows.

Lemma forEvent_counters (n : Z) (st : State) (ev : Event) :
  n < 2 ^ 62 -> countersWithin n st ->
  countersWithin (n + 1) (forEvent parse w st ev).
Proof.
  unfold countersWithin. intros Hn [Hw Hm].
  forEvent_cases parse st ev; try lia.
  destruct (inWeek parse w ev), (inMonth parse w ev);
    rewrite ?wrap_small by (unfold Int64.min_int, Int64.max_int; lia); lia.
Qed.

Lemma forEvents_counters (items : list Event) :
  forall n st,
    n + Z.of_nat (List.length items) < 2 ^ 62 -> countersWithin n st ->
    countersWithin (n + Z.of_nat (List.length items))
                   (forEvents parse w st items).
Proof.
  induction items as [|ev rest IH]; intros n st Hn Hc.
  - simpl. now rewrite Z.add_0_r.
  - rewrite forEvents_cons. cbn [List.length] in *.
    rewrite Nat2Z.inj_succ in *.
    replace (n + Z.succ (Z.of_nat (List.length rest)))
      with ((n + 1) + Z.of_nat (List.length rest)) by lia.
    apply IH; [lia|]. apply forEvent_counters; [lia|exact Hc].
Qed.

Lemma eventCount_nonneg (cals : list Fetch) : 0 <= eventCount cals.
Proof.
  induction cals as [|[err|items] rest IH]; simpl; lia.
Qed.

Lemma forCalendars_counters (cals : list Fetch) :
  forall n st st',
    n + eventCount cals < 2 ^ 62 -> countersWithin n st ->
    forCalendars parse w st cals = Done st' ->
    countersWithin (n + eventCount cals) st'.
Proof.
  induction cals as [|[err|items] rest IH]; intros n st st' Hn Hc Hr.
  - simpl in *. injection Hr as <-. now rewrite Z.add_0_r.
  - discriminate.
  - simpl in *. pose proof (eventCount_nonneg rest).
    rewrite Z.add_assoc. eapply IH; [lia| |exact Hr].
    apply forEvents_counters; [lia|exact Hc].
Qed.
End Bounds.

(** C7.  The targets of a finished run are eight hours per work day:
    [weekTargetTotal] is [workDaysInWeek] times 8 and [monthTargetTotal] is
    [workDaysInMonth] times 8, as exact values of the [float64] that is
    printed, where the counters are those of the state the loops end in.
    Neither counter exceeds the number of events, so with fewer than 2^50
    events the products neither wrap around as [int] nor round as
    [float64]. *)
Theorem targets_are_eight_hours_per_work_day
    (parse : string -> option Time) (now : Time) (cals : list Fetch)
    (r : Report) :
  eventCount cals < 2 ^ 50 ->
  main parse now cals = Done r ->
  forCalendars parse (windowsOf now)
    (initial [OutWindow (monthBegin (windowsOf now)) (monthEnd (windowsOf now));
              OutWindow (weekBegin (windowsOf now)) (weekEnd (windowsOf now))])
    cals
  = Done (final r)
  /\ countersWithin (eventCount cals) (final r)
  /\ weekTargetTotal r = of_int (workDaysInWeek (final r) * 8)
  /\ exactly (weekTargetTotal r) (inject_Z (workDaysInWeek (final r) * 8))
  /\ monthTargetTotal r = of_int (workDaysInMonth (final r) * 8)
  /\ exactly (monthTargetTotal r) (inject_Z (workDaysInMonth (final r) * 8)).
Proof.
  intros Hn Hr. unfold main, aggregate in Hr.
  destruct (forCalendars parse (windowsOf now) _ cals) as [o msg|st] eqn:E;
    [discriminate|].
  injection Hr as <-. cbn [final report weekTargetTotal monthTargetTotal].
  split; [reflexivity|].
  assert (Hc : countersWithin (0 + eventCount cals) st).
  { eapply forCalendars_counters; [|  |exact E].
    - lia.
    - unfold countersWithin, initial. simpl. lia. }
  rewrite Z.add_0_l in Hc. split; [exact Hc|].
  destruct Hc as [Hw Hm].
  rewrite !wrap_small by (unfold Int64.min_int, Int64.max_int; lia).
  repeat split; try reflexivity; apply of_int_exact; lia.
Qed.

Lemma targets_are_eight_hours_per_work_day_witness :
  workDaysInWeek (final Examples.exampleReport) = 1
  /\ exactly (weekTargetTotal Examples.exampleReport)
             (inject_Z (workDaysInWeek (final Examples.exampleReport) * 8)).
Proof.
  split; [reflexivity|].
  refine (proj1 (proj2 (proj2 (proj2
            (targets_are_eight_hours_per_work_day RFC3339.parse Examples.now
               Examples.example Examples.exampleReport _ _))))).
  - reflexivity.
  - reflexivity.
Defined.

(** * Further properties *)

Import Calendar Range Views.

(** ** The calendar *)

Lemma forallZ_spec (f : Z -> bool) (n : nat) :
  forall z, forallZ n z f = true ->
  forall k, 0 <= k < Z.of_nat n -> f (z + k) = true.
Proof.
  induction n as [|n IH]; intros z H k Hk; [lia|].
  simpl in H. apply andb_true_iff in H. destruct H as [H0 H1].
  destruct (Z.eq_dec k 0) as [->|Hne].
  - now rewrite Z.add_0_r.
  - replace (z + k) with (z + 1 + (k - 1)) by lia. apply IH; [exact H1|lia].
Qed.

Lemma dateEqb_eq (a b : Z * Z * Z) : dateEqb a b = true -> a = b.
Proof.
  destruct a as [[y m] d], b as [[y' m'] d']. unfold dateEqb.
  rewrite !andb_true_iff, !Z.eqb_eq. intros [[-> ->] ->]. reflexivity.
Qed.

Lemma cycle_checked : forallZ 4800 0 monthOk = true.
Proof. vm_compute. reflexivity. Qed.

Lemma days_from_civil_shift (y m d j : Z) :
  days_from_civil (y + 400 * j) m d = days_from_civil y m d + 146097 * j.
Proof.
  unfold days_from_civil.
  replace ((if m <=? 2 then y + 400 * j - 1 else y + 400 * j))
    with ((if m <=? 2 then y - 1 else y) + j * 400)
    by (destruct (m <=? 2); lia).
  set (y' := if m <=? 2 then y - 1 else y).
  rewrite Z.div_add by lia.
  replace (y' + j * 400 - (y' / 400 + j) * 400) with (y' - y' / 400 * 400)
    by lia.
  lia.
Qed.

Lemma civil_from_days_shift (z j : Z) :
  civil_from_days (z + 146097 * j)
  = (fst (fst (civil_from_days z)) + 400 * j,
     snd (fst (civil_from_days z)), snd (civil_from_days z)).
Proof.
  unfold civil_from_days.
  replace (z + 146097 * j + 719468) with (z + 719468 + j * 146097) by lia.
  rewrite Z.div_add by lia.
  set (era := (z + 719468) / 146097).
  replace (z + 719468 + j * 146097 - (era + j) * 146097)
    with (z + 719468 - era * 146097) by lia.
  set (doe := z + 719468 - era * 146097).
  set (yoe := (doe - doe / 1460 + doe / 36524 - doe / 146096) / 365).
  set (doy := doe - (365 * yoe + yoe / 4 - yoe / 100)).
  set (mp := (5 * doy + 2) / 153).
  cbn [fst snd].
  destruct ((if mp <? 10 then mp + 3 else mp - 9) <=? 2); f_equal; f_equal; lia.
Qed.

Lemma monthStart_shift (i j : Z) :
  monthStart (i + 4800 * j) = monthStart i + 146097 * j.
Proof.
  unfold monthStart.
  replace (i + 4800 * j) with (i + (400 * j) * 12) by lia.
  rewrite Z.div_add, Z.mod_add by lia.
  apply days_from_civil_shift.
Qed.

Lemma daysIn_shift (m y j : Z) :
  RFC3339.daysIn m (y + 400 * j) = RFC3339.daysIn m y.
Proof.
  unfold RFC3339.daysIn, RFC3339.isLeap.
  replace (y + 400 * j) with (y + (100 * j) * 4) at 1 by lia.
  replace (y + 400 * j) with (y + (4 * j) * 100) at 1 by lia.
  replace (y + 400 * j) with (y + j * 400) by lia.
  now rewrite !Z.mod_add by lia.
Qed.

Lemma daysIn_range (m y : Z) : 28 <= RFC3339.daysIn m y <= 31.
Proof.
  unfold RFC3339.daysIn.
  destruct (m =? 2); [destruct (RFC3339.isLeap y); lia|].
  destruct ((m =? 4) || (m =? 6) || (m =? 9) || (m =? 11)); lia.
Qed.

Lemma month_facts (i : Z) :
  monthStart (i + 1) - monthStart i = RFC3339.daysIn (i mod 12 + 1) (i / 12)
  /\ forall k, 0 <= k < monthStart (i + 1) - monthStart i ->
       civil_from_days (monthStart i + k) = (i / 12, i mod 12 + 1, 1 + k).
Proof.
  pose proof (Z.div_mod i 4800 ltac:(lia)) as Hi.
  pose proof (Z.mod_pos_bound i 4800 ltac:(lia)) as Hb.
  set (j := i / 4800) in *. set (i0 := i mod 4800) in *.
  assert (Ei : i = i0 + 4800 * j) by lia.
  pose proof (forallZ_spec monthOk 4800 0 cycle_checked i0 ltac:(lia)) as C.
  rewrite Z.add_0_l in C. unfold monthOk in C.
  rewrite !andb_true_iff, Z.eqb_eq in C. destruct C as [C1 C3].
  assert (El : monthStart (i + 1) - monthStart i
               = monthStart (i0 + 1) - monthStart i0).
  { rewrite Ei. replace (i0 + 4800 * j + 1) with (i0 + 1 + 4800 * j) by lia.
    rewrite !monthStart_shift. lia. }
  rewrite El. split.
  { rewrite C1, Ei. replace (i0 + 4800 * j) with (i0 + (400 * j) * 12) by lia.
    rewrite Z.div_add, Z.mod_add by lia. now rewrite daysIn_shift. }
  intros k Hk.
  pose proof (forallZ_spec _ _ _ C3 k ltac:(lia)) as D.
  apply dateEqb_eq in D. rewrite Z.add_0_l in D.
  rewrite Ei at 1. rewrite monthStart_shift.
  replace (monthStart i0 + 146097 * j + k)
    with (monthStart i0 + k + 146097 * j) by lia.
  rewrite civil_from_days_shift, D. cbn [fst snd].
  rewrite Ei. replace (i0 + 4800 * j) with (i0 + (400 * j) * 12) by lia.
  rewrite Z.div_add, Z.mod_add by lia. reflexivity.
Qed.

Lemma month_search (n : nat) :
  forall i0 z,
    monthStart i0 <= z < monthStart (i0 + Z.of_nat n) ->
    exists i, monthStart i <= z < monthStart (i + 1).
Proof.
  induction n as [|n IH]; intros i0 z H.
  - rewrite Z.add_0_r in H. lia.
  - rewrite Nat2Z.inj_succ in H.
    destruct (Z_lt_ge_dec z (monthStart (i0 + Z.of_nat n))) as [L|G].
    + apply (IH i0). lia.
    + exists (i0 + Z.of_nat n).
      replace (i0 + Z.of_nat n + 1) with (i0 + Z.succ (Z.of_nat n)) by lia.
      lia.
Qed.

Lemma month_of_day (z : Z) :
  exists i, monthStart i <= z < monthStart (i + 1).
Proof.
  set (j := (z - monthStart 0) / 146097).
  pose proof (Z.div_mod (z - monthStart 0) 146097 ltac:(lia)) as Hd.
  pose proof (Z.mod_pos_bound (z - monthStart 0) 146097 ltac:(lia)) as Hb.
  fold j in Hd.
  apply (month_search 4800 (4800 * j)).
  change (Z.of_nat 4800) with 4800.
  replace (4800 * j + 4800) with (0 + 4800 * (j + 1)) by lia.
  replace (4800 * j) with (0 + 4800 * j) at 1 by lia.
  rewrite !monthStart_shift. lia.
Qed.

(** Every day number is the [k]-th day of some month [i]. *)
Lemma civil_from_days_month (z : Z) :
  exists i k,
    z = monthStart i + k
    /\ 0 <= k < monthStart (i + 1) - monthStart i
    /\ 28 <= monthStart (i + 1) - monthStart i <= 31
    /\ civil_from_days z = (i / 12, i mod 12 + 1, 1 + k).
Proof.
  destruct (month_of_day z) as [i Hi].
  destruct (month_facts i) as [Hlen Hciv].
  pose proof (daysIn_range (i mod 12 + 1) (i / 12)) as Hr.
  exists i, (z - monthStart i).
  split; [lia|]. split; [lia|]. split; [lia|].
  replace z with (monthStart i + (z - monthStart i)) at 1 by lia.
  apply Hciv. lia.
Qed.

Lemma wall_monthStart (y m d h mi s : Z) :
  wall y m d h mi s
  = (monthStart (12 * y + (m - 1)) + (d - 1)) * 86400
    + (h * 3600 + mi * 60 + s).
Proof.
  unfold wall, monthStart.
  replace (12 * y + (m - 1)) with ((m - 1) + y * 12) by lia.
  rewrite Z.div_add, Z.mod_add by lia.
  replace (y + (m - 1) / 12) with ((m - 1) / 12 + y) by lia. lia.
Qed.

Lemma Date_loc (y m d h mi s : Z) (l : Location) :
  loc (Date y m d h mi s l) = l.
Proof.
  unfold Date. now destruct (zoneOffset (lookup l (wall y m d h mi s)) =? 0).
Qed.

(** What [time.Date] subtracts from the reading it is given is an offset
    the location has at some instant. *)
Lemma Date_offset_used (y m d h mi s : Z) (l : Location) :
  exists x, Unix (Date y m d h mi s l) = wall y m d h mi s - offsetAt l x.
Proof.
  unfold Date. set (W := wall y m d h mi s).
  destruct (Z.eqb_spec (zoneOffset (lookup l W)) 0) as [E|E].
  - exists W. unfold offsetAt. rewrite E. cbn [Unix sec]. lia.
  - destruct ((W - zoneOffset (lookup l W) <? zoneStart (lookup l W))
              || (zoneEnd (lookup l W) <=? W - zoneOffset (lookup l W)));
      cbn [Unix sec].
    + now exists (W - zoneOffset (lookup l W)).
    + now exists W.
Qed.

Lemma Date_bounds (y m d h mi s bound : Z) (l : Location) :
  offsetsWithin bound l ->
  wall y m d h mi s - bound <= Unix (Date y m d h mi s l)
  <= wall y m d h mi s + bound.
Proof.
  intros H. destruct (Date_offset_used y m d h mi s l) as [x ->].
  specialize (H x). lia.
Qed.

(** Where the clock is steady, [time.Date] answers the instant at which
    the clock of the location shows the reading asked for. *)
Lemma Date_steady (y m d h mi s : Z) (l : Location) :
  steady l (wall y m d h mi s) ->
  Unix (Date y m d h mi s l) + offset (Date y m d h mi s l)
  = wall y m d h mi s
  /\ offset (Date y m d h mi s l) = offsetAt l (wall y m d h mi s).
Proof.
  unfold steady, offset, Date. set (W := wall y m d h mi s).
  fold (offsetAt l W). set (o := offsetAt l W). intros H.
  assert (Hu : offsetAt l (W - o) = o) by (apply H; lia).
  destruct (Z.eqb_spec o 0) as [E|E].
  - cbn [Unix sec loc]. fold o. lia.
  - assert (Hs : (if (W - o <? zoneStart (lookup l W))
                     || (zoneEnd (lookup l W) <=? W - o)
                  then offsetAt l (W - o) else o) = o)
      by (destruct ((W - o <? zoneStart (lookup l W))
                    || (zoneEnd (lookup l W) <=? W - o)); congruence).
    rewrite Hs. cbn [Unix sec loc]. rewrite Hu. lia.
Qed.

Lemma constantOffset_steady (l : Location) (off reading : Z) :
  constantOffset l off -> steady l reading.
Proof. intros H x _. now rewrite !H. Qed.

(** The month of [now], as a month index, and the place of [now] in it. *)
Lemma now_in_month (now : Time) :
  exists i k,
    localDay now = monthStart i + k
    /\ 0 <= k < monthStart (i + 1) - monthStart i
    /\ 28 <= monthStart (i + 1) - monthStart i <= 31
    /\ Year now = i / 12 /\ Month now = i mod 12 + 1 /\ Day now = 1 + k
    /\ 12 * Year now + (Month now - 1) = i.
Proof.
  destruct (civil_from_days_month (localDay now)) as (i & k & E & Hk & Hl & C).
  exists i, k. unfold Year, Month, Day. rewrite C. cbn [fst snd].
  repeat split; try lia; try assumption.
  pose proof (Z.div_mod i 12 ltac:(lia)). lia.
Qed.

Lemma weekdayOf_range (now : Time) :
  1 <= weekdayOf now <= 7
  /\ (localDay now - weekdayOf now + 5) mod 7 = 1
  /\ (localDay now - weekdayOf now + 11) mod 7 = 0.
Proof.
  unfold weekdayOf, Weekday.
  destruct (Z.eqb_spec ((localDay now + 4) mod 7) 0);
    Z.to_euclidean_division_equations; lia.
Qed.

Lemma Day_range (t : Time) : 1 <= Day t <= 31.
Proof.
  destruct (civil_from_days_month (localDay t)) as (i & k & E & Hk & Hl & C).
  unfold Day. rewrite C. cbn [snd]. lia.
Qed.

Lemma monthStart_le (n : nat) (i : Z) :
  monthStart i <= monthStart (i + Z.of_nat n).
Proof.
  induction n as [|n IH]; [rewrite Z.add_0_r; lia|].
  rewrite Nat2Z.inj_succ.
  destruct (month_facts (i + Z.of_nat n)) as [Hlen _].
  pose proof (daysIn_range ((i + Z.of_nat n) mod 12 + 1)
                           ((i + Z.of_nat n) / 12)).
  replace (i + Z.succ (Z.of_nat n)) with (i + Z.of_nat n + 1) by lia. lia.
Qed.


(** The readings [main] hands to [time.Date] for the two ends of the week
    and of the month, as day numbers and seconds. *)
Lemma week_readings (now : Time) :
  wall (Year now) (Month now) (Day now - weekdayOf now + 1) 0 0 0
  = (localDay now - weekdayOf now + 1) * 86400
  /\ wall (Year now) (Month now) (Day now - weekdayOf now + 7) 23 59 59
     = (localDay now - weekdayOf now + 7) * 86400 + 86399.
Proof.
  destruct (now_in_month now) as (i & k & E & Hk & Hl & Hy & Hm & Hd & Hi).
  rewrite !wall_monthStart, Hi. lia.
Qed.

Lemma month_readings (now : Time) :
  exists first,
    wall (Year now) (Month now) 1 0 0 0 = first * 86400
    /\ wall (Year now) (Month now + 1) 0 23 59 59
       = (first + RFC3339.daysIn (Month now) (Year now) - 1) * 86400 + 86399
    /\ first <= localDay now
       <= first + RFC3339.daysIn (Month now) (Year now) - 1
    /\ Day now = localDay now - first + 1
    /\ (forall k, 0 <= k < RFC3339.daysIn (Month now) (Year now) ->
          civil_from_days (first + k) = (Year now, Month now, 1 + k))
    /\ 1 <= Month now <= 12.
Proof.
  destruct (now_in_month now) as (i & k & E & Hk & Hl & Hy & Hm & Hd & Hi).
  destruct (month_facts i) as [Hlen Hciv].
  pose proof (Z.mod_pos_bound i 12 ltac:(lia)) as Hmod.
  rewrite <- Hm, <- Hy in Hlen, Hciv.
  exists (monthStart i). rewrite !wall_monthStart.
  replace (12 * Year now + (Month now + 1 - 1)) with (i + 1) by lia.
  rewrite Hi.
  set (L := RFC3339.daysIn (Month now) (Year now)) in *.
  repeat split; try lia.
  intros j Hj. apply Hciv. lia.
Qed.

Lemma week_window_facts (now : Time) :
  steady (loc now)
    (wall (Year now) (Month now) (Day now - weekdayOf now + 1) 0 0 0) ->
  steady (loc now)
    (wall (Year now) (Month now) (Day now - weekdayOf now + 7) 23 59 59) ->
  Weekday (weekBegin (windowsOf now)) = 1
  /\ Unix (weekBegin (windowsOf now)) + offset (weekBegin (windowsOf now))
     = localDay (weekBegin (windowsOf now)) * 86400
  /\ Weekday (weekEnd (windowsOf now)) = 0
  /\ Unix (weekEnd (windowsOf now)) + offset (weekEnd (windowsOf now))
     = localDay (weekEnd (windowsOf now)) * 86400 + 86399
  /\ localDay (weekEnd (windowsOf now))
     = localDay (weekBegin (windowsOf now)) + 6
  /\ localDay (weekBegin (windowsOf now)) <= localDay now
     <= localDay (weekEnd (windowsOf now))
  /\ Unix (weekEnd (windowsOf now)) - Unix (weekBegin (windowsOf now))
     = 7 * 86400 - 1
       - (offset (weekEnd (windowsOf now))
          - offset (weekBegin (windowsOf now))).
Proof.
  intros SB SE.
  destruct (week_readings now) as [RB RE].
  destruct (weekdayOf_range now) as (Hwd & Hmon & Hsun).
  destruct (Date_steady _ _ _ _ _ _ _ SB) as [UB _].
  destruct (Date_steady _ _ _ _ _ _ _ SE) as [UE _].
  rewrite RB in UB. rewrite RE in UE.
  unfold windowsOf. cbn [weekBegin weekEnd].
  set (wd := weekdayOf now) in *.
  set (B := Date (Year now) (Month now) (Day now - wd + 1) 0 0 0 (loc now))
    in *.
  set (E := Date (Year now) (Month now) (Day now - wd + 7) 23 59 59 (loc now))
    in *.
  assert (LB : localDay B = localDay now - wd + 1).
  { unfold localDay at 1. unfold Unix in UB. rewrite UB.
    now rewrite Z.div_mul by lia. }
  assert (LE : localDay E = localDay now - wd + 7).
  { unfold localDay at 1. unfold Unix in UE. rewrite UE.
    replace ((localDay now - wd + 7) * 86400 + 86399)
      with (86399 + (localDay now - wd + 7) * 86400) by lia.
    rewrite Z.div_add by lia. reflexivity. }
  unfold Weekday. rewrite LB, LE.
  replace (localDay now - wd + 1 + 4) with (localDay now - wd + 5) by lia.
  replace (localDay now - wd + 7 + 4) with (localDay now - wd + 11) by lia.
  clearbody B E wd. repeat split; try assumption; lia.
Qed.

Lemma month_window_facts (now : Time) :
  steady (loc now) (wall (Year now) (Month now) 1 0 0 0) ->
  steady (loc now) (wall (Year now) (Month now + 1) 0 23 59 59) ->
  Year (monthBegin (windowsOf now)) = Year now
  /\ Month (monthBegin (windowsOf now)) = Month now
  /\ Day (monthBegin (windowsOf now)) = 1
  /\ Unix (monthBegin (windowsOf now)) + offset (monthBegin (windowsOf now))
     = localDay (monthBegin (windowsOf now)) * 86400
  /\ Year (monthEnd (windowsOf now)) = Year now
  /\ Month (monthEnd (windowsOf now)) = Month now
  /\ Day (monthEnd (windowsOf now)) = RFC3339.daysIn (Month now) (Year now)
  /\ Unix (monthEnd (windowsOf now)) + offset (monthEnd (windowsOf now))
     = localDay (monthEnd (windowsOf now)) * 86400 + 86399
  /\ localDay (monthEnd (windowsOf now))
     = localDay (monthBegin (windowsOf now))
       + RFC3339.daysIn (Month now) (Year now) - 1
  /\ localDay (monthBegin (windowsOf now)) <= localDay now
     <= localDay (monthEnd (windowsOf now))
  /\ 1 <= Month now <= 12
  /\ 1 <= Day now <= Day (monthEnd (windowsOf now))
  /\ Unix (monthEnd (windowsOf now)) - Unix (monthBegin (windowsOf now))
     = RFC3339.daysIn (Month now) (Year now) * 86400 - 1
       - (offset (monthEnd (windowsOf now))
          - offset (monthBegin (windowsOf now))).
Proof.
  intros SB SE.
  destruct (month_readings now) as (first & RB & RE & Hin & Hday & Hciv & Hm).
  pose proof (daysIn_range (Month now) (Year now)) as Hr.
  destruct (Date_steady _ _ _ _ _ _ _ SB) as [UB _].
  destruct (Date_steady _ _ _ _ _ _ _ SE) as [UE _].
  rewrite RB in UB. rewrite RE in UE.
  unfold windowsOf. cbn [monthBegin monthEnd].
  set (L := RFC3339.daysIn (Month now) (Year now)) in *.
  set (B := Date (Year now) (Month now) 1 0 0 0 (loc now)) in *.
  set (E := Date (Year now) (Month now + 1) 0 23 59 59 (loc now)) in *.
  assert (LB : localDay B = first + 0).
  { unfold localDay at 1. unfold Unix in UB. rewrite UB.
    rewrite Z.div_mul by lia. lia. }
  assert (LE : localDay E = first + (L - 1)).
  { unfold localDay at 1. unfold Unix in UE. rewrite UE.
    replace ((first + L - 1) * 86400 + 86399)
      with (86399 + (first + L - 1) * 86400) by lia.
    rewrite Z.div_add by lia. change (86399 / 86400) with 0. lia. }
  assert (CB : civil_from_days (localDay B) = (Year now, Month now, 1 + 0))
    by (rewrite LB; apply Hciv; lia).
  assert (CE : civil_from_days (localDay E)
               = (Year now, Month now, 1 + (L - 1)))
    by (rewrite LE; apply Hciv; lia).
  assert (YB : Year B = Year now) by (unfold Year at 1; now rewrite CB).
  assert (MB : Month B = Month now) by (unfold Month at 1; now rewrite CB).
  assert (DB : Day B = 1) by (unfold Day; now rewrite CB).
  assert (YE : Year E = Year now) by (unfold Year at 1; now rewrite CE).
  assert (ME : Month E = Month now) by (unfold Month at 1; now rewrite CE).
  assert (DE : Day E = L) by (unfold Day; rewrite CE; cbn [snd]; lia).
  rewrite DE.
  set (Y := Year now) in *. set (M := Month now) in *.
  set (D0 := Day now) in *.
  clearbody B E L Y M D0. repeat split; try assumption; lia.
Qed.

(** ** The windows of [main] *)

(** X1.  Whatever the time [now] is and whatever its location, if the clock
    of the location is steady around the two readings asked for, the week
    window [main] computes runs from a Monday at 00:00:00 to the Sunday six
    days later at 23:59:59, each on the clock in force at that end; the day
    of [now] is one of its seven days; and it is seven days less one second
    long, less what the clock of the location gains between its two ends. *)
Theorem week_runs_monday_to_sunday (now : Time) :
  steady (loc now)
    (wall (Year now) (Month now) (Day now - weekdayOf now + 1) 0 0 0) ->
  steady (loc now)
    (wall (Year now) (Month now) (Day now - weekdayOf now + 7) 23 59 59) ->
  Weekday (weekBegin (windowsOf now)) = 1
  /\ Unix (weekBegin (windowsOf now)) + offset (weekBegin (windowsOf now))
     = localDay (weekBegin (windowsOf now)) * 86400
  /\ Weekday (weekEnd (windowsOf now)) = 0
  /\ Unix (weekEnd (windowsOf now)) + offset (weekEnd (windowsOf now))
     = localDay (weekEnd (windowsOf now)) * 86400 + 86399
  /\ localDay (weekEnd (windowsOf now))
     = localDay (weekBegin (windowsOf now)) + 6
  /\ localDay (weekBegin (windowsOf now)) <= localDay now
     <= localDay (weekEnd (windowsOf now))
  /\ Unix (weekEnd (windowsOf now)) - Unix (weekBegin (windowsOf now))
     = 7 * 86400 - 1
       - (offset (weekEnd (windowsOf now))
          - offset (weekBegin (windowsOf now))).
Proof. exact (week_window_facts now). Qed.

(** X2.  Whatever the time [now] is and whatever its location, if the clock
    of the location is steady around the two readings asked for, the month
    window [main] computes runs from the first day of the month of [now] at
    00:00:00 to the last day of that month at 23:59:59, each on the clock
    in force at that end, the last day being the length of the month in the
    Gregorian calendar; the day of [now] is one of its days; and it is that
    many days less one second long, less what the clock of the location
    gains between its two ends. *)
Theorem month_runs_first_to_last_day (now : Time) :
  steady (loc now) (wall (Year now) (Month now) 1 0 0 0) ->
  steady (loc now) (wall (Year now) (Month now + 1) 0 23 59 59) ->
  Year (monthBegin (windowsOf now)) = Year now
  /\ Month (monthBegin (windowsOf now)) = Month now
  /\ Day (monthBegin (windowsOf now)) = 1
  /\ Unix (monthBegin (windowsOf now)) + offset (monthBegin (windowsOf now))
     = localDay (monthBegin (windowsOf now)) * 86400
  /\ Year (monthEnd (windowsOf now)) = Year now
  /\ Month (monthEnd (windowsOf now)) = Month now
  /\ Day (monthEnd (windowsOf now)) = RFC3339.daysIn (Month now) (Year now)
  /\ Unix (monthEnd (windowsOf now)) + offset (monthEnd (windowsOf now))
     = localDay (monthEnd (windowsOf now)) * 86400 + 86399
  /\ localDay (monthEnd (windowsOf now))
     = localDay (monthBegin (windowsOf now))
       + RFC3339.daysIn (Month now) (Year now) - 1
  /\ localDay (monthBegin (windowsOf now)) <= localDay now
     <= localDay (monthEnd (windowsOf now))
  /\ 1 <= Month now <= 12
  /\ 1 <= Day now <= Day (monthEnd (windowsOf now))
  /\ Unix (monthEnd (windowsOf now)) - Unix (monthBegin (windowsOf now))
     = RFC3339.daysIn (Month now) (Year now) * 86400 - 1
       - (offset (monthEnd (windowsOf now))
          - offset (monthBegin (windowsOf now))).
Proof. exact (month_window_facts now). Qed.

(** X3.  The events [main.go] asks the calendar service for start on
    30 November of the year before [now] at 00:00:00 (month 0, day 0 of the
    year of [now]) on the clock in force on that day, which is at least 32
    calendar days before the first day of the month window; this where the
    clock of the location is steady around the two readings. *)
Theorem fetch_starts_on_30_november (now : Time) :
  steady (loc now) (wall (Year now) 0 0 0 0 0) ->
  steady (loc now) (wall (Year now) (Month now) 1 0 0 0) ->
  Year (timeMin now) = Year now - 1
  /\ Month (timeMin now) = 11
  /\ Day (timeMin now) = 30
  /\ Unix (timeMin now) + offset (timeMin now)
     = localDay (timeMin now) * 86400
  /\ localDay (timeMin now) + 32
     <= localDay (monthBegin (windowsOf now)).
Proof.
  intros ST SB.
  destruct (now_in_month now) as (i & k & E & Hk & Hl & Hy & Hm & Hd & Hi).
  pose proof (Z.mod_pos_bound i 12 ltac:(lia)) as Hmod.
  destruct (Date_steady _ _ _ _ _ _ _ ST) as [UT _].
  destruct (Date_steady _ _ _ _ _ _ _ SB) as [UB _].
  rewrite wall_monthStart in UT, UB. rewrite Hi in UB.
  set (Y := Year now) in *. set (M := Month now) in *.
  set (j := 12 * Y - 2).
  replace (12 * Y + (0 - 1)) with (j + 1) in UT by (unfold j; lia).
  destruct (month_facts j) as [Hlen Hciv].
  destruct (month_facts (j + 1)) as [Hlen' _].
  assert (Ej : j / 12 = Y - 1 /\ j mod 12 = 10)
    by (unfold j; Z.to_euclidean_division_equations; lia).
  destruct Ej as [Ejd Ejm].
  assert (Ej' : (j + 1) / 12 = Y - 1 /\ (j + 1) mod 12 = 11)
    by (unfold j; Z.to_euclidean_division_equations; lia).
  destruct Ej' as [Ejd' Ejm'].
  rewrite Ejd, Ejm in Hlen, Hciv. rewrite Ejd', Ejm' in Hlen'.
  change (RFC3339.daysIn (10 + 1) (Y - 1)) with 30 in Hlen.
  change (RFC3339.daysIn (11 + 1) (Y - 1)) with 31 in Hlen'.
  assert (Hmono : monthStart (j + 1 + 1) <= monthStart i).
  { pose proof (monthStart_le (Z.to_nat (i - (j + 1 + 1))) (j + 1 + 1)) as Hle.
    rewrite Z2Nat.id in Hle by (unfold j; lia).
    replace (j + 1 + 1 + (i - (j + 1 + 1))) with i in Hle by lia.
    exact Hle. }
  unfold windowsOf. cbn [monthBegin]. unfold timeMin. fold Y M.
  set (T := Date Y 0 0 0 0 0 (loc now)) in *.
  set (B := Date Y M 1 0 0 0 (loc now)) in *.
  assert (LT : localDay T = monthStart j + 29).
  { unfold localDay at 1. unfold Unix in UT. rewrite UT.
    replace ((monthStart (j + 1) + (0 - 1)) * 86400 + (0 * 3600 + 0 * 60 + 0))
      with ((monthStart j + 29) * 86400) by lia.
    now rewrite Z.div_mul by lia. }
  assert (LB : localDay B = monthStart i).
  { unfold localDay at 1. unfold Unix in UB. rewrite UB.
    replace ((monthStart i + (1 - 1)) * 86400 + (0 * 3600 + 0 * 60 + 0))
      with (monthStart i * 86400) by lia.
    now rewrite Z.div_mul by lia. }
  assert (CT : civil_from_days (localDay T) = (Y - 1, 10 + 1, 1 + 29))
    by (rewrite LT; apply Hciv; lia).
  unfold Year at 1, Month, Day. rewrite CT. cbn [fst snd].
  rewrite LT, LB.
  clearbody T B. repeat split; lia.
Qed.

(** X4.  With the windows [main] computes in a location whose offsets are
    within a day of UTC, an event that is in the week or in the month and
    does not end before it starts is shorter than 33 days: its difference
    fits in a [Duration], [Sub] does not saturate, and the duration is
    [Hours] of the exact difference. *)
Theorem window_events_do_not_saturate
    (parse : string -> option Time) (now : Time) (ev : Event)
    (startTime endTime : Time) :
  offsetsWithin 86400 (loc now) ->
  parse (StartDateTime ev) = Some startTime ->
  parse (EndDateTime ev) = Some endTime ->
  0 <= nsec startTime < Second -> 0 <= nsec endTime < Second ->
  Unix startTime <= Unix endTime ->
  inWeek parse (windowsOf now) ev = true
  \/ inMonth parse (windowsOf now) ev = true ->
  - Second < difference endTime startTime < 33 * 24 * Hour
  /\ Sub endTime startTime = difference endTime startTime
  /\ durationOf parse ev = Hours (difference endTime startTime).
Proof.
  intros Hoff Hs He Hns Hne Hle Hin.
  assert (Hstart : startTimeOf parse ev = startTime)
    by (unfold startTimeOf, timeOf; now rewrite Hs).
  assert (Hend : endTimeOf parse ev = endTime)
    by (unfold endTimeOf, timeOf; now rewrite He).
  assert (Hspan : Unix endTime - Unix startTime < 33 * 86400 - 1).
  { destruct Hin as [Hin|Hin].
    - apply inWeek_spec in Hin. rewrite Hstart, Hend in Hin.
      destruct (week_readings now) as [RB RE].
      unfold windowsOf in Hin. cbn [weekBegin weekEnd] in Hin.
      pose proof (Date_bounds (Year now) (Month now)
                    (Day now - weekdayOf now + 1) 0 0 0 86400 (loc now) Hoff)
        as BB.
      pose proof (Date_bounds (Year now) (Month now)
                    (Day now - weekdayOf now + 7) 23 59 59 86400 (loc now)
                    Hoff) as BE.
      rewrite RB in BB. rewrite RE in BE.
      set (B := Unix (Date (Year now) (Month now)
                           (Day now - weekdayOf now + 1) 0 0 0 (loc now)))
        in *.
      set (E := Unix (Date (Year now) (Month now)
                           (Day now - weekdayOf now + 7) 23 59 59 (loc now)))
        in *.
      clearbody B E. lia.
    - apply inMonth_spec in Hin. rewrite Hstart, Hend in Hin.
      destruct (month_readings now) as (first & RB & RE & _).
      pose proof (daysIn_range (Month now) (Year now)) as Hr.
      unfold windowsOf in Hin. cbn [monthBegin monthEnd] in Hin.
      pose proof (Date_bounds (Year now) (Month now) 1 0 0 0 86400 (loc now)
                    Hoff) as BB.
      pose proof (Date_bounds (Year now) (Month now + 1) 0 23 59 59 86400
                    (loc now) Hoff) as BE.
      rewrite RB in BB. rewrite RE in BE.
      set (L := RFC3339.daysIn (Month now) (Year now)) in *.
      set (B := Unix (Date (Year now) (Month now) 1 0 0 0 (loc now))) in *.
      set (E := Unix (Date (Year now) (Month now + 1) 0 23 59 59 (loc now)))
        in *.
      clearbody B E L. lia. }
  assert (Hd : - Second < difference endTime startTime < 33 * 24 * Hour).
  { unfold difference, Hour, Second in *. unfold Unix in *. lia. }
  split; [exact Hd|].
  assert (Hfit : Sub endTime startTime = difference endTime startTime).
  { apply Sub_exact. unfold minDuration, maxDuration, Int64.min_int,
      Int64.max_int, Hour, Second in *. lia. }
  split; [exact Hfit|].
  unfold durationOf. now rewrite Hstart, Hend, Hfit.
Qed.

(** The offsets of the clock of Warsaw, and where it is steady. *)
Lemma Warsaw_offset (x : Z) :
  offsetAt Examples.Warsaw x
  = if (1490490000 <=? x) && (x <? 1509238800) then 7200 else 3600.
Proof.
  unfold offsetAt, Examples.Warsaw. cbn [lookup].
  destruct (Z.ltb_spec x 1490490000), (Z.leb_spec 1490490000 x),
           (Z.ltb_spec x 1509238800); cbn; try reflexivity; lia.
Qed.

Lemma Warsaw_steady (reading : Z) :
  reading + 7200 < 1490490000
  \/ (1490490000 + 7200 <= reading /\ reading + 7200 < 1509238800)
  \/ 1509238800 + 7200 <= reading ->
  steady Examples.Warsaw reading.
Proof.
  intros H x. rewrite !Warsaw_offset.
  destruct (Z.leb_spec 1490490000 reading), (Z.ltb_spec reading 1509238800),
           (Z.leb_spec 1490490000 x), (Z.ltb_spec x 1509238800);
    cbn [andb]; intros Hx; try reflexivity; lia.
Qed.

Lemma Warsaw_within_a_day : offsetsWithin 86400 Examples.Warsaw.
Proof.
  intros x. rewrite Warsaw_offset.
  destruct ((1490490000 <=? x) && (x <? 1509238800)); lia.
Qed.

Lemma week_runs_monday_to_sunday_witness :
  Unix (weekBegin (windowsOf Examples.springInWarsaw)) = 1489964400
  /\ offset (weekBegin (windowsOf Examples.springInWarsaw)) = 3600
  /\ Unix (weekEnd (windowsOf Examples.springInWarsaw)) = 1490565599
  /\ offset (weekEnd (windowsOf Examples.springInWarsaw)) = 7200
  /\ Unix (weekEnd (windowsOf Examples.springInWarsaw))
     - Unix (weekBegin (windowsOf Examples.springInWarsaw))
     = 7 * 86400 - 1
       - (offset (weekEnd (windowsOf Examples.springInWarsaw))
          - offset (weekBegin (windowsOf Examples.springInWarsaw))).
Proof.
  repeat (split; [reflexivity|]).
  refine (proj2 (proj2 (proj2 (proj2 (proj2 (proj2
            (week_runs_monday_to_sunday Examples.springInWarsaw _ _))))))).
  - apply Warsaw_steady. left. vm_compute. reflexivity.
  - apply Warsaw_steady. right. left. vm_compute.
    split; [discriminate|reflexivity].
Defined.

Lemma month_runs_first_to_last_day_witness :
  Unix (monthBegin (windowsOf Examples.autumnInWarsaw)) = 1506808800
  /\ offset (monthBegin (windowsOf Examples.autumnInWarsaw)) = 7200
  /\ Unix (monthEnd (windowsOf Examples.autumnInWarsaw)) = 1509490799
  /\ offset (monthEnd (windowsOf Examples.autumnInWarsaw)) = 3600
  /\ Day (monthEnd (windowsOf Examples.autumnInWarsaw)) = 31
  /\ Unix (monthEnd (windowsOf Examples.autumnInWarsaw))
     - Unix (monthBegin (windowsOf Examples.autumnInWarsaw))
     = RFC3339.daysIn (Month Examples.autumnInWarsaw)
                      (Year Examples.autumnInWarsaw) * 86400 - 1
       - (offset (monthEnd (windowsOf Examples.autumnInWarsaw))
          - offset (monthBegin (windowsOf Examples.autumnInWarsaw))).
Proof.
  repeat (split; [reflexivity|]).
  refine (proj2 (proj2 (proj2 (proj2 (proj2 (proj2 (proj2 (proj2 (proj2
            (proj2 (proj2 (proj2
              (month_runs_first_to_last_day Examples.autumnInWarsaw _ _))))))))))))).
  - apply Warsaw_steady. right. left. vm_compute.
    split; [discriminate|reflexivity].
  - apply Warsaw_steady. right. right. vm_compute. discriminate.
Defined.

Lemma fetch_starts_on_30_november_witness :
  offset Examples.summerInWarsaw = 7200
  /\ offset (timeMin Examples.summerInWarsaw) = 3600
  /\ Unix (timeMin Examples.summerInWarsaw) = 1480460400
  /\ Month (timeMin Examples.summerInWarsaw) = 11
  /\ Day (timeMin Examples.summerInWarsaw) = 30
  /\ Year (timeMin Examples.summerInWarsaw)
     = Year Examples.summerInWarsaw - 1.
Proof.
  repeat (split; [reflexivity|]).
  refine (proj1 (fetch_starts_on_30_november Examples.summerInWarsaw _ _)).
  - apply Warsaw_steady. left. vm_compute. reflexivity.
  - apply Warsaw_steady. right. left. vm_compute.
    split; [discriminate|reflexivity].
Defined.

Lemma window_events_do_not_saturate_witness :
  inWeek RFC3339.parse (windowsOf Examples.springInWarsaw)
         Examples.saturdayInWarsaw = true
  /\ durationOf RFC3339.parse Examples.saturdayInWarsaw
     = Hours (60 * 60 * Second).
Proof.
  split; [reflexivity|].
  refine (proj2 (proj2 (window_events_do_not_saturate RFC3339.parse
                          Examples.springInWarsaw Examples.saturdayInWarsaw
                          (startTimeOf RFC3339.parse Examples.saturdayInWarsaw)
                          (endTimeOf RFC3339.parse Examples.saturdayInWarsaw)
                          _ _ _ _ _ _ _))).
  - exact Warsaw_within_a_day.
  - reflexivity.
  - reflexivity.
  - vm_compute. split; [discriminate|reflexivity].
  - vm_compute. split; [discriminate|reflexivity].
  - vm_compute. discriminate.
  - left. reflexivity.
Defined.

(** ** The loop of [main.go], as a whole *)

Lemma wrap_le (z : Z) : Int64.min_int <= z -> Int64.wrap z <= z.
Proof.
  unfold Int64.wrap, Int64.min_int. intros H.
  pose proof (Z.mod_le (z + 2 ^ 63) (2 ^ 64) ltac:(lia) ltac:(lia)). lia.
Qed.

Lemma wrap_ge (z : Z) : Int64.min_int <= Int64.wrap z.
Proof.
  unfold Int64.wrap, Int64.min_int.
  pose proof (Z.mod_pos_bound (z + 2 ^ 63) (2 ^ 64) ltac:(lia)). lia.
Qed.

Section LoopFacts.

Variable parse : string -> option Time.
Variable w : Windows.

Lemma forEvents_out (st : State) (items : list Event) :
  out (forEvents parse w st items)
  = out st ++ flat_map (linesOf parse) (filter startsWithPrefix items).
Proof.
  revert st. induction items as [|ev rest IH]; intros st.
  - simpl. now rewrite app_nil_r.
  - rewrite forEvents_cons, IH. cbn [filter].
    destruct (startsWithPrefix ev) eqn:E.
    + rewrite (out_forEvent parse w st ev E). cbn [flat_map].
      unfold linesOf. now rewrite <- !app_assoc.
    + now rewrite (forEvent_other parse w st ev E).
Qed.

Lemma forEvent_week_bound (n : Z) (st : State) (ev : Event) :
  Int64.min_int <= workDaysInWeek st <= n ->
  Int64.min_int <= workDaysInWeek (forEvent parse w st ev)
  <= n + (if startsWithPrefix ev && inWeek parse w ev then 1 else 0).
Proof.
  intros H. unfold forEvent, matches, dayChange.
  unfold startsWithPrefix.
  destruct (HasPrefix (Summary ev) titlePrefix); simpl;
    [|lia].
  destruct (Day (startTimeOf parse ev) =? today st); simpl;
    [destruct (inWeek parse w ev); lia|].
  destruct (inWeek parse w ev); [|lia].
  pose proof (wrap_le (workDaysInWeek st + 1)).
  pose proof (wrap_ge (workDaysInWeek st + 1)).
  unfold Int64.min_int in *. lia.
Qed.

Lemma forEvent_month_bound (n : Z) (st : State) (ev : Event) :
  Int64.min_int <= workDaysInMonth st <= n ->
  Int64.min_int <= workDaysInMonth (forEvent parse w st ev)
  <= n + (if startsWithPrefix ev && inMonth parse w ev then 1 else 0).
Proof.
  intros H. unfold forEvent, matches, dayChange.
  unfold startsWithPrefix.
  destruct (HasPrefix (Summary ev) titlePrefix); simpl;
    [|lia].
  destruct (Day (startTimeOf parse ev) =? today st); simpl;
    [destruct (inMonth parse w ev); lia|].
  destruct (inMonth parse w ev); [|lia].
  pose proof (wrap_le (workDaysInMonth st + 1)).
  pose proof (wrap_ge (workDaysInMonth st + 1)).
  unfold Int64.min_int in *. lia.
Qed.

Lemma forEvents_bounds (items : list Event) :
  forall n m st,
    Int64.min_int <= workDaysInWeek st <= n ->
    Int64.min_int <= workDaysInMonth st <= m ->
    workDaysInWeek (forEvents parse w st items)
    <= n + Z.of_nat (List.length (weekEvents parse w items))
    /\ workDaysInMonth (forEvents parse w st items)
       <= m + Z.of_nat (List.length (monthEvents parse w items))
    /\ Int64.min_int <= workDaysInWeek (forEvents parse w st items)
    /\ Int64.min_int <= workDaysInMonth (forEvents parse w st items).
Proof.
  induction items as [|ev rest IH]; intros n m st Hn Hm.
  - simpl. lia.
  - rewrite forEvents_cons.
    pose proof (forEvent_week_bound n st ev Hn) as Bw.
    pose proof (forEvent_month_bound m st ev Hm) as Bm.
    destruct (IH _ _ _ Bw Bm) as (I1 & I2 & I3 & I4).
    unfold weekEvents, monthEvents in *. cbn [filter].
    destruct (startsWithPrefix ev && inWeek parse w ev),
             (startsWithPrefix ev && inMonth parse w ev);
      cbn [List.length]; rewrite ?Nat2Z.inj_succ; lia.
Qed.

(** Calendars fetched before a failed fetch are processed; the failure
    ends the run with what they printed. *)
Lemma forCalendars_failed
    (st : State) (fetched : list (list Event)) (err : string)
    (rest : list Fetch) :
  forCalendars parse w st (map FetchOk fetched ++ FetchError err :: rest)
  = Fatal (out (forEvents parse w st (List.concat fetched)))
          ("Unable to retrieve next ten of the user's events. " ++ err).
Proof.
  revert st. induction fetched as [|items more IH]; intros st.
  - reflexivity.
  - simpl. rewrite IH, forEvents_app. reflexivity.
Qed.

(** X5.  The week total after a sequence of events is the total before it
    with the durations of the matching events of the week added one by one,
    in the order of the input; likewise the month total.  The totals depend
    on nothing else: not on the day last seen, not on the counters. *)
Theorem totals_are_sums_over_window_events (st : State) (items : list Event) :
  weekTotal (forEvents parse w st items)
  = fold_left add (map (durationOf parse) (weekEvents parse w items))
              (weekTotal st)
  /\ monthTotal (forEvents parse w st items)
     = fold_left add (map (durationOf parse) (monthEvents parse w items))
                 (monthTotal st).
Proof.
  revert st. induction items as [|ev rest IH]; intros st; [split; reflexivity|].
  rewrite forEvents_cons. unfold weekEvents, monthEvents in *.
  cbn [filter]. destruct (startsWithPrefix ev) eqn:E.
  - destruct (weekTotal_forEvent parse w st ev E) as [Hw Hm].
    destruct (IH (forEvent parse w st ev)) as [IHw IHm].
    rewrite IHw, IHm, Hw, Hm. cbn [andb].
    destruct (inWeek parse w ev), (inMonth parse w ev); split; reflexivity.
  - rewrite (forEvent_other parse w st ev E). cbn [andb]. apply IH.
Qed.

(** X7.  From the start of a run, [workDaysInWeek] never exceeds the number
    of matching events in the week, and [workDaysInMonth] never exceeds the
    number of matching events in the month. *)
Theorem work_days_at_most_window_events
    (printed : list Output) (items : list Event) :
  workDaysInWeek (forEvents parse w (initial printed) items)
  <= Z.of_nat (List.length (weekEvents parse w items))
  /\ workDaysInMonth (forEvents parse w (initial printed) items)
     <= Z.of_nat (List.length (monthEvents parse w items)).
Proof.
  destruct (forEvents_bounds items 0 0 (initial printed)) as (H1 & H2 & _).
  - simpl. unfold Int64.min_int. lia.
  - simpl. unfold Int64.min_int. lia.
  - lia.
Qed.

(** X8.  The day last seen starts at 0, which is no day of a month: the
    first matching event of a run is always taken as a new day, and is
    counted in each window it is in. *)
Theorem first_matching_event_is_counted
    (printed : list Output) (pre : list Event) (ev : Event) :
  Forall (fun e => startsWithPrefix e = false) pre ->
  startsWithPrefix ev = true ->
  workDaysInWeek (forEvents parse w (initial printed) (pre ++ [ev]))
  = (if inWeek parse w ev then 1 else 0)
  /\ workDaysInMonth (forEvents parse w (initial printed) (pre ++ [ev]))
     = (if inMonth parse w ev then 1 else 0)
  /\ today (forEvents parse w (initial printed) (pre ++ [ev]))
     = Day (startTimeOf parse ev).
Proof.
  intros Hpre Hev.
  assert (Hskip : forEvents parse w (initial printed) pre = initial printed).
  { generalize (initial printed). induction Hpre as [|e l He _ IH]; intros s.
    - reflexivity.
    - rewrite forEvents_cons, (forEvent_other parse w s e He). apply IH. }
  rewrite forEvents_app, Hskip. cbn [forEvents fold_left].
  pose proof (Day_range (startTimeOf parse ev)) as Hd.
  unfold forEvent, matches, dayChange. unfold startsWithPrefix in Hev.
  rewrite Hev. cbn [negb initial today].
  destruct (Z.eqb_spec (Day (startTimeOf parse ev)) 0) as [E0|_]; [lia|].
  cbn [workDaysInWeek workDaysInMonth today].
  destruct (inWeek parse w ev), (inMonth parse w ev); repeat split.
Qed.

(** X9.  When the week lies inside the month, every event of the week is an
    event of the month, and the week never has more work days than the
    month. *)
Theorem week_days_at_most_month_days
    (printed : list Output) (items : list Event) :
  weekInsideMonth w ->
  Z.of_nat (List.length items) < 2 ^ 62 ->
  (forall ev, inWeek parse w ev = true -> inMonth parse w ev = true)
  /\ 0 <= workDaysInWeek (forEvents parse w (initial printed) items)
     <= workDaysInMonth (forEvents parse w (initial printed) items).
Proof.
  intros [Hb He] Hlen.
  assert (Himp : forall ev, inWeek parse w ev = true ->
                            inMonth parse w ev = true).
  { intros ev H. apply inWeek_spec in H. apply inMonth_spec. lia. }
  split; [exact Himp|].
  assert (G : forall n st,
             n + Z.of_nat (List.length items) < 2 ^ 62 ->
             0 <= workDaysInWeek st <= workDaysInMonth st ->
             workDaysInMonth st <= n ->
             0 <= workDaysInWeek (forEvents parse w st items)
             <= workDaysInMonth (forEvents parse w st items)).
  { clear Hlen. induction items as [|ev rest IH]; intros n st Hn Hle Hm.
    - exact Hle.
    - rewrite forEvents_cons. cbn [List.length] in Hn.
      rewrite Nat2Z.inj_succ in Hn.
      apply (IH (n + 1)); [lia| |].
      + forEvent_cases parse st ev; try lia.
        specialize (Himp ev).
        destruct (inWeek parse w ev), (inMonth parse w ev);
          rewrite ?wrap_small
            by (unfold Int64.min_int, Int64.max_int; lia);
          lia.
      + forEvent_cases parse st ev; try lia.
        destruct (inMonth parse w ev);
          rewrite ?wrap_small
            by (unfold Int64.min_int, Int64.max_int; lia);
          lia. }
  apply (G 0); simpl; lia.
Qed.

Lemma forEvent_agree (s : Summary.State) (e : Earlier.State) (ev : Event) :
  agree s e ->
  agree (forEvent parse w s ev) (Earlier.forEvent parse w e ev).
Proof.
  unfold agree. intros (H1 & H2 & H3 & H4 & H5).
  unfold forEvent, Earlier.forEvent, matches, dayChange.
  destruct (HasPrefix (Summary ev) titlePrefix); simpl; [|tauto].
  fold (startTimeOf parse ev). fold (endTimeOf parse ev).
  fold (inWeek parse w ev). fold (inMonth parse w ev).
  fold (durationOf parse ev).
  rewrite <- H1.
  destruct (Day (startTimeOf parse ev) =? today s); simpl;
    destruct (inWeek parse w ev), (inMonth parse w ev); simpl;
    rewrite ?H2, ?H3, ?H4, ?H5; tauto.
Qed.

(** X13.  On the same events and windows the earlier version of the loop
    ends with the same day last seen, the same totals and the same counters
    as the loop of [main.go]. *)
Theorem earlier_version_computes_the_same
    (printed printed' : list Output) (items : list Event) :
  agree (forEvents parse w (initial printed) items)
        (Earlier.forEvents parse w (Earlier.initial printed') items).
Proof.
  assert (G : forall s e, agree s e ->
                agree (forEvents parse w s items)
                      (Earlier.forEvents parse w e items)).
  { induction items as [|ev rest IH]; intros s e H; [exact H|].
    apply IH. now apply forEvent_agree. }
  apply G. unfold agree. simpl. tauto.
Qed.

(** X14.  The two earlier programs print the same lines: for every matching
    event, in the order of the input, its parse errors, its title, its
    hours and an empty line; the hours are the duration [main.go] prints,
    and the windows have no part in it. *)
Theorem earlier_versions_print_the_same
    (st : Earlier.State) (items : list Event) :
  Earlier.out (Earlier.forEvents parse w st items)
  = Earlier.out st
    ++ flat_map (earlierLinesOf parse) (filter startsWithPrefix items)
  /\ First.forEvents parse (Earlier.out st) items
     = Earlier.out (Earlier.forEvents parse w st items).
Proof.
  assert (A : forall st,
             Earlier.out (Earlier.forEvents parse w st items)
             = Earlier.out st
               ++ flat_map (earlierLinesOf parse) (filter startsWithPrefix items)).
  { induction items as [|ev rest IH]; intros s.
    - simpl. now rewrite app_nil_r.
    - unfold Earlier.forEvents in *. cbn [fold_left filter]. rewrite IH.
      unfold Earlier.forEvent, startsWithPrefix.
      destruct (HasPrefix (Summary ev) titlePrefix); simpl; [|reflexivity].
      unfold earlierLinesOf, durationOf, startTimeOf, endTimeOf.
      now rewrite <- !app_assoc. }
  assert (B : forall o,
             First.forEvents parse o items
             = o ++ flat_map (earlierLinesOf parse) (filter startsWithPrefix items)).
  { clear A. induction items as [|ev rest IH]; intros o.
    - simpl. now rewrite app_nil_r.
    - unfold First.forEvents in *. cbn [fold_left filter]. rewrite IH.
      unfold First.forEvent, startsWithPrefix.
      destruct (HasPrefix (Summary ev) titlePrefix); simpl; [|reflexivity].
      unfold earlierLinesOf, durationOf, startTimeOf, endTimeOf.
      now rewrite <- !app_assoc. }
  split; [apply A|]. now rewrite A, B.
Qed.

End LoopFacts.

(** X10.  A failed fetch ends the run at once: the lines of the calendars
    fetched before it have been printed, the calendars after it are not
    looked at, and no totals are printed. *)
Theorem failed_fetch_is_fatal
    (parse : string -> option Time) (now : Time)
    (fetched : list (list Event)) (err : string) (rest : list Fetch) :
  main parse now (map FetchOk fetched ++ FetchError err :: rest)
  = Fatal (windowLines now
           ++ flat_map (linesOf parse)
                (filter startsWithPrefix (List.concat fetched)))
          ("Unable to retrieve next ten of the user's events. " ++ err).
Proof.
  unfold main, aggregate. rewrite forCalendars_failed, forEvents_out.
  reflexivity.
Qed.

(** X11.  The calendars are processed as one sequence: a run over several
    calendars is the run over one calendar holding their events in the same
    order, and its final variables are those of the loop over that
    sequence. *)
Theorem calendars_are_one_sequence
    (parse : string -> option Time) (now : Time)
    (fetched : list (list Event)) :
  main parse now (map FetchOk fetched)
  = main parse now [FetchOk (List.concat fetched)]
  /\ exists r,
      main parse now (map FetchOk fetched) = Done r
      /\ final r
         = forEvents parse (windowsOf now) (initial (windowLines now))
                     (List.concat fetched).
Proof.
  unfold main, aggregate. rewrite forCalendars_fetched.
  split; [reflexivity|]. eexists. split; reflexivity.
Qed.

Lemma first_matching_event_is_counted_witness :
  workDaysInWeek
    (forEvents RFC3339.parse Examples.week (initial [])
               ([Examples.lunch] ++ [Examples.standup]))
  = (if inWeek RFC3339.parse Examples.week Examples.standup then 1 else 0).
Proof.
  refine (proj1 (first_matching_event_is_counted RFC3339.parse Examples.week
                   [] [Examples.lunch] Examples.standup _ _)).
  - repeat constructor.
  - reflexivity.
Defined.

Lemma week_days_at_most_month_days_witness :
  weekInsideMonth Examples.week
  /\ 0 <= workDaysInWeek
            (forEvents RFC3339.parse Examples.week (initial [])
                       [Examples.firstOfMarch; Examples.sixthOfMarch])
     <= workDaysInMonth
          (forEvents RFC3339.parse Examples.week (initial [])
                     [Examples.firstOfMarch; Examples.sixthOfMarch]).
Proof.
  assert (H : weekInsideMonth Examples.week)
    by (unfold weekInsideMonth; vm_compute; split; discriminate).
  split; [exact H|].
  refine (proj2 (week_days_at_most_month_days RFC3339.parse Examples.week
                   [] [Examples.firstOfMarch; Examples.sixthOfMarch] H _)).
  vm_compute. reflexivity.
Defined.

(** ** A bound on the work days *)

Section DayBound.

Variable parse : string -> option Time.
Variable w : Windows.
(** A counter of the loop and the window it belongs to. *)
Variable counter : State -> Z.
Variable inWindow : Event -> bool.
Variable lo hi : Z.

Hypothesis counter_other :
  forall st ev, startsWithPrefix ev = false ->
                counter (forEvent parse w st ev) = counter st.
Hypothesis counter_step :
  forall st ev, startsWithPrefix ev = true ->
    counter (forEvent parse w st ev)
    = if negb (Day (startTimeOf parse ev) =? today st) && inWindow ev
      then Int64.wrap (counter st + 1) else counter st.

Lemma counter_after_day (items : list Event) :
  forall base d st,
    base + (hi - lo + 1) < 2 ^ 62 -> 0 <= base ->
    today st = snd (civil_from_days d) ->
    0 <= counter st <= base + reach lo hi d ->
    ascendingDays parse items ->
    Forall (fun t => d <= localDay t) (starts parse items) ->
    windowDays parse inWindow lo hi items ->
    lo <= hi + 1 ->
    0 <= counter (forEvents parse w st items) <= base + (hi - lo + 1).
Proof.
  unfold ascendingDays, reach, windowDays.
  induction items as [|ev rest IH];
    intros base d st Hb Hb0 Ht Hc Hs Hge Hwd Hlh.
  - simpl. lia.
  - apply Forall_cons_iff in Hwd. destruct Hwd as [window_days Hwd].
    rewrite forEvents_cons. destruct (startsWithPrefix ev) eqn:E.
    + rewrite (starts_match parse ev rest E) in Hs, Hge.
      apply StronglySorted_inv in Hs. destruct Hs as [Hs Hhd].
      apply Forall_cons_iff in Hge. destruct Hge as [Hd Hrest].
      apply (IH base (localDay (startTimeOf parse ev))); try assumption.
      * now rewrite today_after.
      * rewrite (counter_step st ev E).
        destruct (Z.eqb_spec (Day (startTimeOf parse ev)) (today st))
          as [Heq|Hne]; cbn [negb andb]; [lia|].
        destruct (inWindow ev) eqn:Hin; [|lia].
        pose proof (window_days eq_refl eq_refl) as Hw.
        assert (d <> localDay (startTimeOf parse ev)).
        { intros ->. apply Hne. unfold Day. now rewrite Ht. }
        rewrite wrap_small by (unfold Int64.min_int, Int64.max_int; lia).
        lia.
    + rewrite (starts_other parse ev rest E) in Hs, Hge.
      apply (IH base d); try assumption.
      * now rewrite (forEvent_other parse w st ev E).
      * now rewrite (counter_other st ev E).
Qed.

Lemma counter_from_start (items : list Event) :
  forall base st,
    base + (hi - lo + 1) < 2 ^ 62 ->
    0 <= counter st <= base ->
    ascendingDays parse items ->
    windowDays parse inWindow lo hi items ->
    lo <= hi + 1 ->
    0 <= counter (forEvents parse w st items) <= base + (hi - lo + 1).
Proof.
  unfold ascendingDays. intros base st Hb Hc Hs Hwd Hlh.
  revert base st Hb Hc Hs.
  induction items as [|ev rest IH]; intros base st Hb Hc Hs.
  - simpl. lia.
  - pose proof Hwd as Hwd'.
    apply Forall_cons_iff in Hwd'. destruct Hwd' as [window_days Hwd'].
    rewrite forEvents_cons. destruct (startsWithPrefix ev) eqn:E.
    + rewrite (starts_match parse ev rest E) in Hs.
      apply StronglySorted_inv in Hs. destruct Hs as [Hs Hhd].
      apply (counter_after_day rest base (localDay (startTimeOf parse ev)));
        try assumption; try lia.
      * now rewrite today_after.
      * rewrite (counter_step st ev E). unfold reach.
        destruct (negb (Day (startTimeOf parse ev) =? today st)); cbn [andb];
          [|lia].
        destruct (inWindow ev) eqn:Hin; [|lia].
        pose proof (window_days eq_refl eq_refl) as Hw.
        rewrite wrap_small by (unfold Int64.min_int, Int64.max_int; lia).
        lia.
    + rewrite (starts_other parse ev rest E) in Hs.
      rewrite (forEvent_other parse w st ev E). now apply IH.
Qed.

End DayBound.

Lemma workDaysInWeek_step
    (parse : string -> option Time) (w : Windows) (st : State) (ev : Event) :
  startsWithPrefix ev = true ->
  workDaysInWeek (forEvent parse w st ev)
  = if negb (Day (startTimeOf parse ev) =? today st) && inWeek parse w ev
    then Int64.wrap (workDaysInWeek st + 1) else workDaysInWeek st.
Proof.
  intros E. unfold forEvent, matches, dayChange.
  unfold startsWithPrefix in E. rewrite E. simpl.
  destruct (Day (startTimeOf parse ev) =? today st); simpl; [reflexivity|].
  destruct (inWeek parse w ev); reflexivity.
Qed.

Lemma workDaysInMonth_step
    (parse : string -> option Time) (w : Windows) (st : State) (ev : Event) :
  startsWithPrefix ev = true ->
  workDaysInMonth (forEvent parse w st ev)
  = if negb (Day (startTimeOf parse ev) =? today st) && inMonth parse w ev
    then Int64.wrap (workDaysInMonth st + 1) else workDaysInMonth st.
Proof.
  intros E. unfold forEvent, matches, dayChange.
  unfold startsWithPrefix in E. rewrite E. simpl.
  destruct (Day (startTimeOf parse ev) =? today st); simpl; [reflexivity|].
  destruct (inMonth parse w ev); reflexivity.
Qed.

Section SevenDays.

Variable parse : string -> option Time.
Variable now : Time.
Variable off : Z.

Hypothesis clock_never_changed : constantOffset (loc now) off.

Lemma offset_now : offset now = off.
Proof. apply clock_never_changed. Qed.

Lemma offset_Date (y m d h mi s : Z) :
  offset (Date y m d h mi s (loc now)) = off.
Proof.
  unfold offset. rewrite Date_loc. apply clock_never_changed.
Qed.

Lemma offset_windows :
  offset (weekBegin (windowsOf now)) = off
  /\ offset (weekEnd (windowsOf now)) = off
  /\ offset (monthBegin (windowsOf now)) = off
  /\ offset (monthEnd (windowsOf now)) = off.
Proof.
  unfold windowsOf. cbn [weekBegin weekEnd monthBegin monthEnd].
  now rewrite !offset_Date.
Qed.

Lemma localEvents_sameZone (items : list Event) :
  localEvents parse now items -> sameZone parse off items.
Proof.
  unfold localEvents, sameZone, starts. intros H.
  induction H as [|ev rest Hev _ IH]; [constructor|].
  cbn [filter]. destruct (startsWithPrefix ev) eqn:E; [|exact IH].
  cbn [map]. constructor; [|exact IH].
  destruct (Hev eq_refl) as [Ho _]. now rewrite Ho, offset_now.
Qed.

Lemma week_days_of_events (items : list Event) :
  localEvents parse now items ->
  windowDays parse (inWeek parse (windowsOf now))
    (localDay (weekBegin (windowsOf now)))
    (localDay (weekBegin (windowsOf now)) + 6) items.
Proof.
  unfold windowDays, localEvents. intros H. eapply Forall_impl; [|exact H].
  intros ev Hev E Hin. destruct (Hev E) as [Hoff Hle].
  apply inWeek_spec in Hin. rewrite offset_now in Hoff.
  pose proof (week_window_facts now
                (constantOffset_steady _ _ _ clock_never_changed)
                (constantOffset_steady _ _ _ clock_never_changed)) as W.
  destruct W as (_ & W1 & _ & W2 & W3 & _).
  destruct offset_windows as (O1 & O2 & _).
  rewrite O1 in W1. rewrite O2 in W2.
  set (wb := Unix (weekBegin (windowsOf now))) in *.
  set (we := Unix (weekEnd (windowsOf now))) in *.
  set (WB := localDay (weekBegin (windowsOf now))) in *.
  set (WE := localDay (weekEnd (windowsOf now))) in *.
  unfold localDay. rewrite Hoff. unfold Unix in Hin, Hle.
  set (s := sec (startTimeOf parse ev)) in *.
  set (e := sec (endTimeOf parse ev)) in *.
  clearbody wb we WB WE s e.
  split.
  - apply Z.div_le_lower_bound; lia.
  - apply Z.lt_succ_r. apply Z.div_lt_upper_bound; lia.
Qed.

Lemma month_days_of_events (items : list Event) :
  localEvents parse now items ->
  windowDays parse (inMonth parse (windowsOf now))
    (localDay (monthBegin (windowsOf now)))
    (localDay (monthBegin (windowsOf now))
     + RFC3339.daysIn (Month now) (Year now) - 1) items.
Proof.
  unfold windowDays, localEvents. intros H. eapply Forall_impl; [|exact H].
  intros ev Hev E Hin. destruct (Hev E) as [Hoff Hle].
  apply inMonth_spec in Hin. rewrite offset_now in Hoff.
  pose proof (month_window_facts now
                (constantOffset_steady _ _ _ clock_never_changed)
                (constantOffset_steady _ _ _ clock_never_changed)) as M.
  destruct M as (_ & _ & _ & M1 & _ & _ & _ & M2 & M3 & _).
  destruct offset_windows as (_ & _ & O1 & O2).
  rewrite O1 in M1. rewrite O2 in M2.
  set (mb := Unix (monthBegin (windowsOf now))) in *.
  set (me := Unix (monthEnd (windowsOf now))) in *.
  set (MB := localDay (monthBegin (windowsOf now))) in *.
  set (ME := localDay (monthEnd (windowsOf now))) in *.
  set (L := RFC3339.daysIn (Month now) (Year now)) in *.
  unfold localDay. rewrite Hoff. unfold Unix in Hin, Hle.
  set (s := sec (startTimeOf parse ev)) in *.
  set (e := sec (endTimeOf parse ev)) in *.
  clearbody mb me MB ME L s e.
  split.
  - apply Z.div_le_lower_bound; lia.
  - apply Z.lt_succ_r. apply Z.div_lt_upper_bound; lia.
Qed.

(** X17.  With the windows [main] computes in a location whose clock is
    never changed, when the matching events come in ascending order of
    their start, are written with the offset of that location and do not
    end before they start, the week has at most 7 work days and the month
    at most as many as it has days, so at most 31. *)
Theorem at_most_seven_work_days_a_week
    (printed : list Output) (items : list Event) :
  ascending parse items ->
  localEvents parse now items ->
  0 <= workDaysInWeek
         (forEvents parse (windowsOf now) (initial printed) items) <= 7
  /\ 0 <= workDaysInMonth
            (forEvents parse (windowsOf now) (initial printed) items)
     <= RFC3339.daysIn (Month now) (Year now)
  /\ RFC3339.daysIn (Month now) (Year now) <= 31.
Proof.
  intros Ha Hl.
  assert (Hd : ascendingDays parse items).
  { apply (ascending_sameZone_days parse off); [exact Ha|].
    now apply localEvents_sameZone. }
  pose proof (daysIn_range (Month now) (Year now)) as Hr.
  pose proof (counter_from_start parse (windowsOf now) workDaysInWeek
                (inWeek parse (windowsOf now))
                (localDay (weekBegin (windowsOf now)))
                (localDay (weekBegin (windowsOf now)) + 6)
                (fun st ev E =>
                   f_equal workDaysInWeek (forEvent_other _ _ st ev E))
                (workDaysInWeek_step parse (windowsOf now))
                items 0 (initial printed)) as CW.
  pose proof (counter_from_start parse (windowsOf now) workDaysInMonth
                (inMonth parse (windowsOf now))
                (localDay (monthBegin (windowsOf now)))
                (localDay (monthBegin (windowsOf now))
                 + RFC3339.daysIn (Month now) (Year now) - 1)
                (fun st ev E =>
                   f_equal workDaysInMonth (forEvent_other _ _ st ev E))
                (workDaysInMonth_step parse (windowsOf now))
                items 0 (initial printed)) as CM.
  pose proof (week_days_of_events items Hl) as DW.
  pose proof (month_days_of_events items Hl) as DM.
  cbn [initial workDaysInWeek workDaysInMonth] in CW, CM.
  set (L := RFC3339.daysIn (Month now) (Year now)) in *.
  set (WB := localDay (weekBegin (windowsOf now))) in *.
  set (MB := localDay (monthBegin (windowsOf now))) in *.
  set (cw := workDaysInWeek
               (forEvents parse (windowsOf now) (initial printed) items))
    in *.
  set (cm := workDaysInMonth
               (forEvents parse (windowsOf now) (initial printed) items))
    in *.
  assert (RW : 0 <= cw <= 0 + (WB + 6 - WB + 1))
    by (apply CW; try assumption; lia).
  assert (RM : 0 <= cm <= 0 + (MB + L - 1 - MB + 1))
    by (apply CM; try assumption; lia).
  clearbody cw cm WB MB L. lia.
Qed.

End SevenDays.

Lemma at_most_seven_work_days_a_week_witness :
  constantOffset (loc Examples.now) 0
  /\ 0 <= workDaysInWeek
            (forEvents RFC3339.parse (windowsOf Examples.now) (initial [])
                       [Examples.standup; Examples.review; Examples.lunch])
     <= 7.
Proof.
  assert (H : constantOffset (loc Examples.now) 0) by (intros x; reflexivity).
  split; [exact H|].
  refine (proj1 (at_most_seven_work_days_a_week RFC3339.parse Examples.now 0
                   H [] [Examples.standup; Examples.review; Examples.lunch]
                   _ _)).
  - unfold ascending. repeat constructor. vm_compute. discriminate.
  - unfold localEvents. repeat constructor; vm_compute; discriminate.
Defined.

(** ** The token cache *)

Section CacheFacts.

Import TokenCache.

Variable Token : Type.
Variable currentUser : Result string.
Variable Join : string -> string -> string.
Variable QueryEscape : string -> string.
Variable decode : string -> option Token.
Variable encode : Token -> string.
Variable authCodeURL : string.
Variable Exchange : string -> Result Token.
Variable openFile : string -> Result unit.

Let client :=
  getClient Token currentUser Join QueryEscape decode encode authCodeURL
            Exchange openFile.
Let cacheFile := tokenCacheFile currentUser Join QueryEscape.

Lemma files_write (file content : string) (w : World) :
  files (write file content w) file = Some content
  /\ forall f, f <> file -> files (write file content w) f = files w f.
Proof.
  unfold write. cbn [files]. rewrite String.eqb_refl. split; [reflexivity|].
  intros f Hf. apply String.eqb_neq in Hf. now rewrite Hf.
Qed.

(** X15.  When the cache file holds no token that decodes, [getClient]
    prints the link, reads one word from standard input, exchanges it for a
    token, announces and writes the cache file, and answers with that
    token; no other file changes.  If the decoder reads back what the
    encoder wrote, the next call finds the token in the file: it answers
    with the same token and asks, reads and writes nothing. *)
Theorem fresh_token_is_saved_and_reused
    (w : World) (file code : string) (rest : list string) (tok : Token) :
  cacheFile = Ok file ->
  tokenFromFile Token decode file w = None ->
  stdin w = code :: rest ->
  Exchange code = Ok tok ->
  openFile file = Ok tt ->
  exists w',
    client w = Done w' tok
    /\ files w' file = Some (encode tok)
    /\ (forall f, f <> file -> files w' f = files w f)
    /\ stdin w' = rest
    /\ printed w' = printed w ++ [MsgAuthorize authCodeURL; MsgSaving file]
    /\ (decode (encode tok) = Some tok -> client w' = Done w' tok).
Proof.
  intros Hf Hmiss Hin Hex Hopen.
  unfold client, getClient. unfold cacheFile in Hf. rewrite Hf, Hmiss.
  unfold getTokenFromWeb. cbn [print stdin]. rewrite Hin, Hex.
  unfold saveToken. rewrite Hopen.
  eexists. split; [reflexivity|].
  split; [apply files_write|].
  split; [intros f Hne; now rewrite (proj2 (files_write _ _ _) f Hne)|].
  split; [reflexivity|].
  split; [cbn; now rewrite <- app_assoc|].
  intros Hrt. unfold tokenFromFile.
  rewrite (proj1 (files_write _ _ _)), Hrt. reflexivity.
Qed.

(** X16.  [getClient] writes no file but the cache file, and that only in a
    call that returns: a call that ends in [log.Fatalf] leaves every file as
    it was.  A call that finds a token in the cache file changes nothing at
    all.  Whatever happens, what was printed stays printed and at most one
    word of standard input is consumed. *)
Theorem only_the_cache_file_is_written (w : World) :
  (forall w' msg, client w = Fatal w' msg -> forall f, files w' f = files w f)
  /\ (forall file f,
        cacheFile = Ok file -> f <> file ->
        files (worldOf (client w)) f = files w f)
  /\ (forall file tok,
        cacheFile = Ok file ->
        tokenFromFile Token decode file w = Some tok ->
        client w = Done w tok)
  /\ (exists msgs, printed (worldOf (client w)) = printed w ++ msgs)
  /\ (stdin (worldOf (client w)) = stdin w
      \/ exists code, stdin w = code :: stdin (worldOf (client w))).
Proof.
  unfold client, getClient, cacheFile.
  destruct (tokenCacheFile currentUser Join QueryEscape) as [e|file].
  { cbn [worldOf]. split; [intros w' msg H f; now injection H as <- _|].
    split; [discriminate|]. split; [discriminate|].
    split; [exists []; now rewrite app_nil_r|]. now left. }
  destruct (tokenFromFile Token decode file w) as [tok|] eqn:Hhit.
  { cbn [worldOf]. split; [discriminate|].
    split; [reflexivity|].
    split; [intros file' tok' Hf Hs; injection Hf as <-; congruence|].
    split; [exists []; now rewrite app_nil_r|]. now left. }
  assert (Hmiss : forall file' tok',
             @Ok string file = Ok file' ->
             tokenFromFile Token decode file' w = Some tok' -> False)
    by (intros file' tok' Hf Hs; injection Hf as <-; congruence).
  unfold getTokenFromWeb. cbn [print stdin files printed].
  destruct (stdin w) as [|code rest] eqn:Hin.
  { cbn [worldOf print files printed stdin].
    split; [intros w' msg H f; now injection H as <- _|].
    split; [reflexivity|].
    split; [intros file' tok' Hf Hs; destruct (Hmiss _ _ Hf Hs)|].
    split; [now eexists|]. now left. }
  destruct (Exchange code) as [e|tok].
  { cbn [worldOf print files printed stdin].
    split; [intros w' msg H f; now injection H as <- _|].
    split; [reflexivity|].
    split; [intros file' tok' Hf Hs; destruct (Hmiss _ _ Hf Hs)|].
    split; [now eexists|]. right. now exists code. }
  unfold saveToken. cbn [print stdin files printed].
  destruct (openFile file) as [e|[]].
  { cbn [worldOf print files printed stdin].
    split; [intros w' msg H f; now injection H as <- _|].
    split; [reflexivity|].
    split; [intros file' tok' Hf Hs; destruct (Hmiss _ _ Hf Hs)|].
    split; [eexists; rewrite <- app_assoc; reflexivity|].
    right. now exists code. }
  cbn [worldOf].
  split; [discriminate|].
  split.
  { intros file' f Hf Hne. injection Hf as <-.
    now rewrite (proj2 (files_write _ _ _) f Hne). }
  split; [intros file' tok' Hf Hs; destruct (Hmiss _ _ Hf Hs)|].
  split; [eexists; cbn [printed write print]; rewrite <- app_assoc;
          reflexivity|].
  right. now exists code.
Qed.

(** What a call of [getClient] that returns has printed: nothing when
    the token was in the cache file, the link and the announcement of the
    cache file otherwise. *)
Lemma getClient_printed (w w' : World) (tok : Token) :
  client w = Done w' tok ->
  printed w' = printed w
  \/ exists file,
       cacheFile = Ok file
       /\ printed w'
          = printed w ++ [MsgAuthorize authCodeURL; MsgSaving file].
Proof.
  unfold client, getClient, cacheFile.
  destruct (tokenCacheFile currentUser Join QueryEscape) as [e|file];
    [discriminate|].
  destruct (tokenFromFile Token decode file w) as [t|].
  { intros H. injection H as <- _. now left. }
  unfold getTokenFromWeb. cbn [print stdin files printed].
  destruct (stdin w) as [|code rest]; [discriminate|].
  destruct (Exchange code) as [e|t]; [discriminate|].
  unfold saveToken. cbn [print stdin files printed].
  destruct (openFile file) as [e|[]]; [discriminate|].
  intros H. injection H as <- _. right. exists file.
  split; [reflexivity|]. cbn [printed write print].
  now rewrite <- app_assoc.
Qed.

End CacheFacts.

Lemma fresh_token_is_saved_and_reused_witness :
  exists w',
    CacheExample.getClient CacheExample.fresh = TokenCache.Done w' "token:4/secret"%string
    /\ TokenCache.files w' CacheExample.path = Some "token:4/secret"%string
    /\ TokenCache.stdin w' = ["more"%string]
    /\ CacheExample.getClient w' = TokenCache.Done w' "token:4/secret"%string.
Proof.
  destruct (fresh_token_is_saved_and_reused string (TokenCache.Ok "/home/user"%string)
              CacheExample.join (fun s => s) (fun s => Some s) (fun t => t)
              "https://accounts.example/auth"%string CacheExample.exchange
              (fun _ => TokenCache.Ok tt) CacheExample.fresh CacheExample.path
              "4/secret"%string ["more"%string] "token:4/secret"%string
              eq_refl eq_refl eq_refl eq_refl eq_refl)
    as (w' & H1 & H2 & _ & H3 & _ & H4).
  exists w'. repeat split; try assumption. now apply H4.
Defined.

Lemma only_the_cache_file_is_written_witness :
  TokenCache.files
    (TokenCache.worldOf (CacheExample.getClient CacheExample.fresh))
    "client_secret.json"%string
  = TokenCache.files CacheExample.fresh "client_secret.json"%string.
Proof.
  refine (proj1 (proj2
            (only_the_cache_file_is_written string
               (TokenCache.Ok "/home/user"%string)
               CacheExample.join (fun s => s) (fun s => Some s) (fun t => t)
               "https://accounts.example/auth"%string CacheExample.exchange
               (fun _ => TokenCache.Ok tt) CacheExample.fresh))
            CacheExample.path "client_secret.json"%string _ _).
  - reflexivity.
  - discriminate.
Defined.

(** ** The program as a whole *)

Lemma forCalendars_done
    (parse : string -> option Time) (w : Windows) (cals : list Fetch) :
  forall st st',
    forCalendars parse w st cals = Done st' ->
    exists fetched, cals = map FetchOk fetched.
Proof.
  induction cals as [|[err|items] rest IH]; intros st st' H.
  - now exists [].
  - discriminate.
  - cbn [forCalendars] in H. destruct (IH _ _ H) as [fetched ->].
    now exists (items :: fetched).
Qed.

(** A run of the report part that reaches its end has fetched every
    calendar and printed the window lines, the lines of the matching
    events and the total lines. *)
Lemma main_done
    (parse : string -> option Time) (now : Time) (cals : list Fetch)
    (r : Report) :
  main parse now cals = Done r ->
  exists fetched,
    cals = map FetchOk fetched
    /\ stdout r
       = windowLines now
         ++ flat_map (linesOf parse)
              (filter startsWithPrefix (List.concat fetched))
         ++ totalLines r.
Proof.
  unfold main, aggregate. intros H.
  destruct (forCalendars parse (windowsOf now) _ cals) as [o msg|st] eqn:E;
    [discriminate|].
  injection H as <-.
  destruct (forCalendars_done _ _ _ _ _ E) as [fetched ->].
  exists fetched. split; [reflexivity|].
  rewrite forCalendars_fetched in E. injection E as <-.
  cbn [stdout report final weekTargetTotal monthTargetTotal].
  rewrite forEvents_out. cbn [initial out]. unfold windowLines, totalLines.
  cbn [final weekTargetTotal monthTargetTotal].
  now rewrite <- !app_assoc.
Qed.

Lemma forEvents_nothing_matching
    (parse : string -> option Time) (w : Windows)
    (fetched : list (list Event)) :
  Forall (Forall (fun ev => startsWithPrefix ev = false)) fetched ->
  forall st, forEvents parse w st (List.concat fetched) = st.
Proof.
  intros H st. rewrite <- forEvents_filter.
  replace (filter startsWithPrefix (List.concat fetched)) with (@nil Event);
    [reflexivity|].
  symmetry. induction H as [|items more Hi _ IH]; [reflexivity|].
  cbn [List.concat]. rewrite filter_app, IH, app_nil_r.
  induction Hi as [|ev l He _ IHl]; [reflexivity|].
  cbn [filter]. now rewrite He.
Qed.

Section ProgramFacts.

Variable Config Token Service Calendar : Type.
Variable readError : string -> string.
Variable ConfigFromJSON : string -> TokenCache.Result Config.
Variable currentUser : TokenCache.Result string.
Variable Join : string -> string -> string.
Variable QueryEscape : string -> string.
Variable decode : string -> option Token.
Variable encode : Token -> string.
Variable AuthCodeURL : Config -> string.
Variable Exchange : Config -> string -> TokenCache.Result Token.
Variable openFile : string -> TokenCache.Result unit.
Variable New : Config -> Token -> TokenCache.Result Service.
Variable CalendarList : Service -> TokenCache.Result (option (list Calendar)).
Variable Events : Service -> Calendar -> Time -> Time -> Fetch.
Variable Now : Time.
Variable parse : string -> option Time.

Let run : TokenCache.World -> Program.Outcome :=
  Program.main Config Token Service Calendar readError ConfigFromJSON
    currentUser Join QueryEscape decode encode AuthCodeURL Exchange openFile
    New CalendarList Events Now parse.
Let client (config : Config)
    : TokenCache.World -> TokenCache.Outcome Token :=
  Program.getClient Config Token currentUser Join QueryEscape decode encode
    AuthCodeURL Exchange openFile config.
Let answers : Service -> list Calendar -> list Fetch :=
  Program.answers Service Calendar Events Now.

(** X6.  Standard output grows by appending only.  A sequence of events
    adds, for each matching event in the order of the input, the parse
    errors of its start and end and then its one line.  A run of the
    program reaches the end of [main] only if the client secret was read
    and parsed, the token cache answered, and the service, the list of
    calendars and the events of every calendar were obtained; it has then
    printed, after what the token cache printed (nothing when the token was
    in the cache file, the link and the announcement of the cache file
    otherwise), the two window lines, the lines of the matching events of
    all calendars, and the two total lines, and nothing else. *)
Theorem one_line_per_matching_event :
  (forall w st items,
      out (forEvents parse w st items)
      = out st ++ flat_map (linesOf parse) (filter startsWithPrefix items))
  /\ (forall w w' printed r,
        run w = Program.Done w' printed r ->
        exists b config tok srv calendars fetched,
          TokenCache.files w "client_secret.json" = Some b
          /\ ConfigFromJSON b = TokenCache.Ok config
          /\ client config w = TokenCache.Done w' tok
          /\ New config tok = TokenCache.Ok srv
          /\ CalendarList srv = TokenCache.Ok (Some calendars)
          /\ answers srv calendars = map FetchOk fetched
          /\ printed
             = map Program.CacheLine (TokenCache.printed w')
               ++ map Program.ReportLine
                    (windowLines Now
                     ++ flat_map (linesOf parse)
                          (filter startsWithPrefix (List.concat fetched))
                     ++ totalLines r)
          /\ (TokenCache.printed w' = TokenCache.printed w
              \/ exists file,
                   TokenCache.printed w'
                   = TokenCache.printed w
                     ++ [TokenCache.MsgAuthorize (AuthCodeURL config);
                         TokenCache.MsgSaving file])).
Proof.
  split; [intros w st items; apply forEvents_out|].
  intros w w' printed r. unfold run, Program.main.
  destruct (TokenCache.files w "client_secret.json") as [b|]; [|discriminate].
  destruct (ConfigFromJSON b) as [e|config] eqn:J; [discriminate|].
  fold (client config).
  destruct (client config w) as [w1 msg|w1 tok] eqn:C; [discriminate|].
  destruct (New config tok) as [e|srv] eqn:N; [discriminate|].
  destruct (CalendarList srv) as [e|[calendars|]] eqn:L; try discriminate.
  fold (answers srv calendars).
  destruct (main parse Now (answers srv calendars)) as [o msg|r'] eqn:M;
    [discriminate|].
  intros H. injection H as <- <- <-.
  destruct (main_done _ _ _ _ M) as (fetched & Ha & Hout).
  exists b, config, tok, srv, calendars, fetched.
  repeat (split; [assumption || reflexivity|]). split.
  - unfold Program.lines. now rewrite Hout.
  - unfold client, Program.getClient in C.
    destruct (getClient_printed _ _ _ _ _ _ _ _ _ _ _ _ C)
      as [Hp|(file & _ & Hp)]; [now left|right; now exists file].
Qed.

(** X12.  When the program gets as far as the loop (the client secret is
    read and parsed, the token cache answers, the service and the list of
    calendars are there) and no event of any calendar matches (no
    calendars, empty calendars, or other titles only), the run ends
    normally with both totals 0, both counters 0 and both targets 0; after
    what the token cache printed it prints the two window lines and the two
    total lines, whose difference is the negative zero, and nothing
    else. *)
Theorem nothing_matching_gives_zero_report
    (w w1 : TokenCache.World) (b : string) (config : Config) (tok : Token)
    (srv : Service) (calendars : list Calendar)
    (fetched : list (list Event)) :
  TokenCache.files w "client_secret.json" = Some b ->
  ConfigFromJSON b = TokenCache.Ok config ->
  client config w = TokenCache.Done w1 tok ->
  New config tok = TokenCache.Ok srv ->
  CalendarList srv = TokenCache.Ok (Some calendars) ->
  answers srv calendars = map FetchOk fetched ->
  Forall (Forall (fun ev => startsWithPrefix ev = false)) fetched ->
  run w
  = Program.Done w1
      (map Program.CacheLine (TokenCache.printed w1)
       ++ map Program.ReportLine
            (windowLines Now
             ++ [OutTotal "week total" zero zero (S754_zero true);
                 OutTotal "month total" zero zero (S754_zero true)]))
      {| final := initial (windowLines Now);
         weekTargetTotal := zero;
         monthTargetTotal := zero;
         stdout :=
           windowLines Now
           ++ [OutTotal "week total" zero zero (S754_zero true);
               OutTotal "month total" zero zero (S754_zero true)] |}.
Proof.
  intros Hb Hc Hg Hn Hl Ha Hno. unfold run, Program.main.
  rewrite Hb, Hc. fold (client config). rewrite Hg, Hn, Hl.
  fold (answers srv calendars). rewrite Ha.
  unfold main, aggregate. rewrite forCalendars_fetched.
  rewrite (forEvents_nothing_matching parse (windowsOf Now) fetched Hno).
  reflexivity.
Qed.

End ProgramFacts.

Lemma one_line_per_matching_event_witness :
  exists w' printed r,
    ProgramExample.machine ProgramExample.work ProgramExample.fresh
    = Program.Done w' printed r
    /\ r = Examples.exampleReport
    /\ printed
       = map Program.CacheLine
           [TokenCache.MsgAuthorize "https://accounts.example/auth";
            TokenCache.MsgSaving CacheExample.path]
         ++ map Program.ReportLine
              (windowLines Examples.now
               ++ linesOf RFC3339.parse Examples.standup
               ++ linesOf RFC3339.parse Examples.review
               ++ totalLines r)
    /\ exists fetched,
         printed
         = map Program.CacheLine (TokenCache.printed w')
           ++ map Program.ReportLine
                (windowLines Examples.now
                 ++ flat_map (linesOf RFC3339.parse)
                      (filter startsWithPrefix (List.concat fetched))
                 ++ totalLines r).
Proof.
  destruct (ProgramExample.machine ProgramExample.work ProgramExample.fresh)
    as [w0 p0 msg|w' printed r] eqn:E; [vm_compute in E; discriminate|].
  exists w', printed, r. split; [reflexivity|].
  assert (E' := E). vm_compute in E'.
  split; [now injection E' as _ _ <-|].
  split; [now injection E' as _ <- <-|].
  destruct (proj2 (one_line_per_matching_event string string string string
                     (fun name => "no such file or directory"%string)
                     (fun b => TokenCache.Ok b)
                     (TokenCache.Ok "/home/user"%string) CacheExample.join
                     (fun s => s) (fun s => Some s) (fun t => t)
                     (fun config => "https://accounts.example/auth"%string)
                     (fun config => CacheExample.exchange)
                     (fun _ => TokenCache.Ok tt)
                     (fun config tok => TokenCache.Ok tok)
                     (fun srv =>
                        TokenCache.Ok (Some ["work"%string; "home"%string]))
                     (fun srv cal timeMin timeMax =>
                        FetchOk (ProgramExample.work cal))
                     Examples.now RFC3339.parse)
                  ProgramExample.fresh w' printed r E)
    as (b & config & tok & srv & calendars & fetched & _ & _ & _ & _ & _ & _
        & Hp & _).
  exists fetched. exact Hp.
Defined.

Lemma nothing_matching_gives_zero_report_witness :
  ProgramExample.machine ProgramExample.idle ProgramExample.cached
  = Program.Done ProgramExample.cached
      (map Program.ReportLine
         (windowLines Examples.now
          ++ [OutTotal "week total" zero zero (S754_zero true);
              OutTotal "month total" zero zero (S754_zero true)]))
      {| final := initial (windowLines Examples.now);
         weekTargetTotal := zero;
         monthTargetTotal := zero;
         stdout :=
           windowLines Examples.now
           ++ [OutTotal "week total" zero zero (S754_zero true);
               OutTotal "month total" zero zero (S754_zero true)] |}.
Proof.
  refine (nothing_matching_gives_zero_report string string string string
            (fun name => "no such file or directory"%string)
            (fun b => TokenCache.Ok b)
            (TokenCache.Ok "/home/user"%string) CacheExample.join
            (fun s => s) (fun s => Some s) (fun t => t)
            (fun config => "https://accounts.example/auth"%string)
            (fun config => CacheExample.exchange)
            (fun _ => TokenCache.Ok tt)
            (fun config tok => TokenCache.Ok tok)
            (fun srv =>
               TokenCache.Ok (Some ["work"%string; "home"%string]))
            (fun srv cal timeMin timeMax =>
               FetchOk (ProgramExample.idle cal))
            Examples.now RFC3339.parse
            ProgramExample.cached ProgramExample.cached
            "{}"%string "{}"%string "token:4/secret"%string
            "token:4/secret"%string ["work"%string; "home"%string]
            [[Examples.lunch; Examples.lowerCase]; []]
            eq_refl eq_refl eq_refl eq_refl eq_refl eq_refl _).
  repeat constructor.
Defined.
